(** * Chat Stream: the conversation builder, the completion client and the
      reply integrator

    A shallow embedding of [src/noteGenerator.ts] and [src/openai/chatGPT.ts].
    JavaScript values are modelled as follows.

    - A string is a [string]; a character is a code unit restricted to the
      8-bit range of [ascii].
    - A token count or a limit is a [Z] (they are subtracted, and the
      difference is used as a slice bound that may be negative).
    - An array is a [list]; [unshift] is [cons], [push] is [app] at the end.
    - [null]/[undefined] results are [None] at an [option] type.
    - A closure that mutates captured variables is a function that takes and
      returns the captured state.
    - A function that may throw returns an [Outcome]. *)

From Stdlib Require Import ZArith List String Ascii Bool Lia.
From Stdlib Require Import Numbers.DecimalString.
From Stdlib Require Import Sorting.Sorted Sorting.Permutation.
Import ListNotations.

Set Warnings "-register-all".

Local Open Scope string_scope.
Local Open Scope Z_scope.

(* ================================================================= *)
(** ** JavaScript strings and arrays *)

Module JS.

(** [WhiteSpace] and [LineTerminator] code units below 256: TAB, LF, VT, FF,
    CR, SPACE and NBSP.  These are what [String.prototype.trim] removes. *)
Definition isWhiteSpace (c : ascii) : bool :=
  let n := nat_of_ascii c in
  ((9 <=? n)%nat && (n <=? 13)%nat) || (n =? 32)%nat || (n =? 160)%nat.

Fixpoint trimStart (s : string) : string :=
  match s with
  | EmptyString => EmptyString
  | String c s' => if isWhiteSpace c then trimStart s' else s
  end.

(** [trimEnd] drops the longest all-white-space suffix. *)
Fixpoint trimEnd (s : string) : string :=
  match s with
  | EmptyString => EmptyString
  | String c s' =>
      match trimEnd s' with
      | EmptyString => if isWhiteSpace c then EmptyString else String c EmptyString
      | t => String c t
      end
  end.

Definition trim (s : string) : string := trimEnd (trimStart s).

(** [s.startsWith(p)] *)
Definition startsWith (s p : string) : bool := String.prefix p s.

(** [s.slice(0, n)] for a bound [n >= 0], as the callers below use it. *)
Definition strSlice0 (s : string) (n : nat) : string := String.substring 0 n s.

(** A string is truthy when it is not empty. *)
Definition truthyStr (s : string) : bool :=
  match s with EmptyString => false | _ => true end.

(** [a.slice(0, e)]: a negative [e] counts from the end of the array, and the
    resulting bound is clamped to [0 .. a.length]. *)
Definition slice0 {A : Type} (a : list A) (e : Z) : list A :=
  let len := Z.of_nat (List.length a) in
  let k := if e <? 0 then Z.max (len + e) 0 else Z.min e len in
  firstn (Z.to_nat k) a.

(** [parts.join('')] on an array of strings *)
Definition join (parts : list string) : string :=
  fold_right String.append EmptyString parts.

(** [parts.join(sep)] *)
Fixpoint joinWith (sep : string) (parts : list string) : string :=
  match parts with
  | [] => EmptyString
  | [p] => p
  | p :: rest => p ++ sep ++ joinWith sep rest
  end.

End JS.

(* ================================================================= *)
(** ** JSON values, property access and [JSON.stringify] *)

Module Json.

(** The values [JSON.parse] produces.  Numbers are restricted to the integers
    that print in plain decimal notation; an object keeps its members in
    source order, and a later member with the same key shadows an earlier
    one. *)
Inductive JSON : Type :=
| JNull
| JBool (b : bool)
| JNum (n : Z)
| JStr (s : string)
| JArr (items : list JSON)
| JObj (members : list (string * JSON)).

(** A JavaScript value read out of a parsed body: [None] is [undefined]. *)
Definition JSValue := option JSON.

Fixpoint lookupLast (key : string) (members : list (string * JSON)) : JSValue :=
  match members with
  | [] => None
  | (k, v) :: rest =>
      match lookupLast key rest with
      | Some w => Some w
      | None => if String.eqb k key then Some v else None
      end
  end.

(** The result of evaluating an expression that may throw. *)
Inductive Outcome (A : Type) : Type :=
| Returned (a : A)
| Threw (error : string).
Arguments Returned {A} a.
Arguments Threw {A} error.

Definition bind {A B : Type} (m : Outcome A) (k : A -> Outcome B) : Outcome B :=
  match m with
  | Returned a => k a
  | Threw e => Threw e
  end.

Definition TypeError : string := "TypeError".

(** [v.key] for a key that is none of the built-in properties of strings
    and arrays ([content], [output], [output_text], [type], [text]):
    reading a property of [null] or [undefined] throws, a primitive or an
    array has no such property, an object answers with its member. *)
Definition getProp (v : JSValue) (key : string) : Outcome JSValue :=
  match v with
  | None => Threw TypeError
  | Some JNull => Threw TypeError
  | Some (JObj members) => Returned (lookupLast key members)
  | Some _ => Returned None
  end.

(** [ToBoolean] *)
Definition truthy (v : JSValue) : bool :=
  match v with
  | None => false
  | Some JNull => false
  | Some (JBool b) => b
  | Some (JNum n) => negb (n =? 0)
  | Some (JStr s) => JS.truthyStr s
  | Some (JArr _) => true
  | Some (JObj _) => true
  end.

Definition isArray (v : JSValue) : option (list JSON) :=
  match v with
  | Some (JArr items) => Some items
  | _ => None
  end.

Definition decimal (n : Z) : string := NilZero.string_of_int (Z.to_int n).

(** [ToString], as [Array.prototype.join] applies it to an element:
    [null] and [undefined] elements print as the empty string. *)
Fixpoint toString (j : JSON) : string :=
  match j with
  | JNull => "null"
  | JBool true => "true"
  | JBool false => "false"
  | JNum n => decimal n
  | JStr s => s
  | JArr items =>
      JS.joinWith ","
        (map (fun x => match x with JNull => EmptyString | _ => toString x end) items)
  | JObj _ => "[object Object]"
  end.

Definition joinElement (v : JSValue) : string :=
  match v with
  | None => EmptyString
  | Some JNull => EmptyString
  | Some j => toString j
  end.

Definition hexDigit (n : nat) : ascii :=
  ascii_of_nat (if (n <? 10)%nat then 48 + n else 87 + n).

Definition dquote : ascii := ascii_of_nat 34.
Definition backslash : ascii := ascii_of_nat 92.

(** [QuoteJSONString], one code unit. *)
Definition escapeChar (c : ascii) : string :=
  let n := nat_of_ascii c in
  if (n =? 34)%nat then String backslash (String dquote EmptyString)
  else if (n =? 92)%nat then String backslash (String backslash EmptyString)
  else if (n =? 8)%nat then String backslash "b"
  else if (n =? 9)%nat then String backslash "t"
  else if (n =? 10)%nat then String backslash "n"
  else if (n =? 12)%nat then String backslash "f"
  else if (n =? 13)%nat then String backslash "r"
  else if (n <? 32)%nat then
    String backslash
      ("u00" ++ String (hexDigit (n / 16)) (String (hexDigit (n mod 16)) EmptyString))
  else String c EmptyString.

Fixpoint escapeString (s : string) : string :=
  match s with
  | EmptyString => EmptyString
  | String c s' => escapeChar c ++ escapeString s'
  end.

Definition quote (s : string) : string :=
  String dquote (escapeString s ++ String dquote EmptyString).

(** [JSON.stringify(j)] without indentation. *)
Fixpoint stringify (j : JSON) : string :=
  match j with
  | JNull => "null"
  | JBool true => "true"
  | JBool false => "false"
  | JNum n => decimal n
  | JStr s => quote s
  | JArr items => "[" ++ JS.joinWith "," (map stringify items) ++ "]"
  | JObj members =>
      "{" ++ JS.joinWith ","
               (map (fun kv => quote (fst kv) ++ ":" ++ stringify (snd kv)) members)
          ++ "}"
  end.

End Json.


(* ================================================================= *)
(** ** Settings, notes and messages *)

(** [ChatStreamSettings], the fields the generator reads.  [temperature]
    is a floating-point number that is only forwarded to the endpoint; it is
    left out. *)
Record ChatStreamSettings : Type := {
  apiKey : string;
  apiModel : string;
  systemPrompt : string;
  maxInputTokens : Z;
  maxResponseTokens : Z;
  maxDepth : Z
}.

(** A canvas note: [content] is what [readNodeContent] yields for it
    ([None] when there is nothing to read), [chat_role] is the tag kept in the
    node data. *)
Record CanvasNode : Type := {
  id : string;
  content : option string;
  chat_role : option string;
  color : option string;
  height : Z
}.

Inductive Role : Type := system | user | assistant.

(** [content: string | Array<{type: string, ...}>] *)
Inductive Content : Type :=
| CString (text : string)
| CArray (parts : list Json.JSON).

Record Message : Type := {
  content_of : Content;
  role : Role
}.

(** The tokenizer returned by [getEncoding(settings)]; js-tiktoken is an
    external library. *)
Record Encoding : Type := {
  encode : string -> list nat;
  decode : list nat -> string
}.

(** The notes above a note, unfolded along incoming edges: a note with several
    incoming edges has several parent subtrees, and a note reachable along
    two paths occurs in both. *)
Inductive Ancestry : Type :=
| Anc (node : CanvasNode) (parents : list Ancestry).

(** A single-parent chain: [n], then its ancestors nearest first. *)
Fixpoint chain (n : CanvasNode) (ancestors : list CanvasNode) : Ancestry :=
  match ancestors with
  | [] => Anc n []
  | p :: rest => Anc n [chain p rest]
  end.

(** Modelled from the spec: [readNodeContent] of [./obsidian/fileUtil] is
    missing; the spec lists it as the node read operation of the graph
    surface, which yields the note's content. *)
Definition readNodeContent (n : CanvasNode) : option string := content n.

(** Modelled from the spec: [visitNodeAndAncestors] of
    [./obsidian/canvasUtil] is missing.  The visitor is invoked on the start
    node at depth 0, then on each direct ancestor at depth + 1, recursively,
    depth first; a falsy answer stops the descent along that branch and
    sibling branches still run; nothing is deduplicated.  The visitor's
    captured variables are the state [S]. *)
Fixpoint visitNodeAndAncestors {S : Type}
    (visitor : CanvasNode -> Z -> S -> bool * S)
    (start : Ancestry) (depth : Z) (s : S) : S :=
  match start with
  | Anc n parents =>
      let (shouldContinue, s1) := visitor n depth s in
      if shouldContinue then
        fold_left (fun acc p => visitNodeAndAncestors visitor p (depth + 1) acc)
                  parents s1
      else s1
  end.

(** The per-character tokenizer: one token per code unit.  It instantiates
    [Encoding] where a concrete run is evaluated. *)
Definition charEncoding : Encoding := {|
  encode := fun s => map nat_of_ascii (list_ascii_of_string s);
  decode := fun ts => string_of_list_ascii (map ascii_of_nat ts)
|}.

(* ================================================================= *)
(** ** The conversation builder ([noteGenerator.ts]) *)

Module Builder.

Definition isSystemPromptNode (text : string) : bool :=
  JS.startsWith (JS.trim text) "SYSTEM PROMPT".

Definition getTokenLimit (settings : ChatStreamSettings) : Z :=
  let defaultLimit := 8192 in
  if negb (maxInputTokens settings =? 0) && (maxInputTokens settings >? 0)
  then maxInputTokens settings
  else defaultLimit.

(** The variables [buildMessages] declares and [visit] updates; [debugLog]
    collects the two lengths of each [logDebug] truncation line. *)
Record BuildState : Type := {
  messages : list Message;
  tokenCount : Z;
  debugLog : list (nat * nat)
}.

Record BuildResult : Type := {
  result_messages : list Message;
  result_tokenCount : Z
}.

Definition imageMessage (nodeText : string) : Message := {|
  content_of :=
    CArray [Json.JObj [("type", Json.JStr "image_url");
                       ("image_url", Json.JObj [("url", Json.JStr nodeText)])]];
  role := user
|}.

Definition roleOf (n : CanvasNode) : Role :=
  match chat_role n with
  | Some r => if String.eqb r "assistant" then assistant else user
  | None => user
  end.

(** [(await readNodeContent(node))?.trim() || ''] *)
Definition nodeTextOf (n : CanvasNode) : string :=
  match readNodeContent n with
  | Some c => JS.trim c
  | None => EmptyString
  end.

Section WithSettings.

Variable settings : ChatStreamSettings.
Variable encoding : Encoding.

Definition tokenLength (text : string) : Z :=
  Z.of_nat (List.length (encode encoding text)).

(** The visitor of [getSystemPrompt]; its state is [foundPrompt]. *)
Definition promptVisitor (n : CanvasNode) (depth : Z) (foundPrompt : option string)
  : bool * option string :=
  match readNodeContent n with
  | Some text =>
      if JS.truthyStr text && isSystemPromptNode text
      then (false, Some text)
      else (true, foundPrompt)
  | None => (true, foundPrompt)
  end.

Definition getSystemPrompt (node : Ancestry) : string :=
  match visitNodeAndAncestors promptVisitor node 0 None with
  | Some p => if JS.truthyStr p then p else systemPrompt settings
  | None => systemPrompt settings
  end.

Definition visit (node : CanvasNode) (depth : Z) (st : BuildState) : bool * BuildState :=
  if negb (maxDepth settings =? 0) && (depth >? maxDepth settings) then (false, st)
  else
    let nodeText := nodeTextOf node in
    let inputLimit := getTokenLimit settings in
    if negb (JS.truthyStr nodeText) then (true, st)
    else if JS.startsWith nodeText "data:image" then
      (true, {| messages := imageMessage nodeText :: messages st;
                tokenCount := tokenCount st;
                debugLog := debugLog st |})
    else if isSystemPromptNode nodeText then (true, st)
    else
      let nodeTokens := encode encoding nodeText in
      if tokenCount st + Z.of_nat (List.length nodeTokens) >? inputLimit then
        let keepTokens := JS.slice0 nodeTokens (inputLimit - tokenCount st - 1) in
        let truncateTextTo := String.length (decode encoding keepTokens) in
        (false, {| messages :=
                     {| content_of := CString (JS.strSlice0 nodeText truncateTextTo);
                        role := roleOf node |} :: messages st;
                   tokenCount := tokenCount st + Z.of_nat (List.length keepTokens);
                   debugLog := debugLog st ++ [(String.length nodeText, truncateTextTo)] |})
      else
        (true, {| messages :=
                    {| content_of := CString nodeText; role := roleOf node |}
                    :: messages st;
                  tokenCount := tokenCount st + Z.of_nat (List.length nodeTokens);
                  debugLog := debugLog st |}).

(** The state in which the walk of [buildMessages] starts: the system prompt,
    when there is one, is charged first. *)
Definition initialState (prompt : string) : BuildState := {|
  messages := [];
  tokenCount := if JS.truthyStr prompt then tokenLength prompt else 0;
  debugLog := []
|}.

Definition walk (node : Ancestry) : BuildState :=
  visitNodeAndAncestors visit node 0 (initialState (getSystemPrompt node)).

Definition buildMessages (node : Ancestry) (actionPrompt : option string) : BuildResult :=
  let prompt := getSystemPrompt node in
  let st := walk node in
  match messages st with
  | [] => {| result_messages := []; result_tokenCount := 0 |}
  | _ :: _ =>
      let withSystem :=
        if JS.truthyStr prompt
        then {| content_of := CString prompt; role := system |} :: messages st
        else messages st in
      match actionPrompt with
      | Some action =>
          if JS.truthyStr action then
            {| result_messages :=
                 withSystem ++ [{| content_of := CString action; role := user |}];
               result_tokenCount := tokenCount st + tokenLength action |}
          else {| result_messages := withSystem; result_tokenCount := tokenCount st |}
      | None => {| result_messages := withSystem; result_tokenCount := tokenCount st |}
      end
  end.

End WithSettings.

End Builder.

(* ================================================================= *)
(** ** The completion client ([openai/chatGPT.ts]) *)

Module Client.

Import Json.

(** An entry of the request's [input] array. *)
Record InputEntry : Type := {
  entry_role : Role;
  entry_content : string
}.

(** The request body: [{input, model, ...settings}], with the two options
    that [generateNote] passes. *)
Record RequestBody : Type := {
  body_input : list InputEntry;
  body_model : string;
  body_max_tokens : option Z
}.

Definition normalizeModel (model : string) : string :=
  if String.eqb model "o3-mini" then "gpt-4o-mini"
  else if JS.truthyStr model && JS.startsWith model "o3" then "gpt-4o"
  else model.

Definition formatMessage (msg : Message) : InputEntry :=
  let content :=
    match content_of msg with
    | CString s => s
    | CArray parts => stringify (JArr parts)
    end in
  {| entry_role := role msg; entry_content := content |}.

Definition formattedInput (input : list Message) : list InputEntry :=
  map formatMessage input.

Definition requestBody (model : string) (input : list Message)
    (max_tokens : option Z) : RequestBody :=
  {| body_input := formattedInput input;
     body_model := normalizeModel model;
     body_max_tokens := max_tokens |}.

Definition isOutputText (t : JSValue) : bool :=
  match t with
  | Some (JStr s) => String.eqb s "output_text"
  | _ => false
  end.

(** [items.filter(item => item.type === "output_text")] *)
Fixpoint filterOutputText (items : list JSON) : Outcome (list JSON) :=
  match items with
  | [] => Returned []
  | item :: rest =>
      bind (getProp (Some item) "type") (fun t =>
      bind (filterOutputText rest) (fun kept =>
      Returned (if isOutputText t then item :: kept else kept)))
  end.

(** [items.map(item => item.text)] *)
Fixpoint mapText (items : list JSON) : Outcome (list JSValue) :=
  match items with
  | [] => Returned []
  | item :: rest =>
      bind (getProp (Some item) "text") (fun t =>
      bind (mapText rest) (fun texts => Returned (t :: texts)))
  end.

(** [content.filter(...).map(...).join('')] on an array [content]. *)
Definition extractText (content : list JSON) : Outcome string :=
  bind (filterOutputText content) (fun kept =>
  bind (mapText kept) (fun texts =>
  Returned (JS.join (map joinElement texts)))).

(** [res?.output_text] *)
Definition outputTextHelper (res : JSON) : Outcome JSValue :=
  match res with
  | JNull => Returned None
  | _ => getProp (Some res) "output_text"
  end.

(** The statements between [JSON.parse] and the [catch] clause, on the parsed
    body [res]. *)
Definition parseResponse (res : JSON) : Outcome JSValue :=
  if negb (truthy (Some res)) then outputTextHelper res
  else
    bind (getProp (Some res) "content") (fun content =>
    match isArray content with
    | Some items =>
        bind (extractText items) (fun textOutputs => Returned (Some (JStr textOutputs)))
    | None =>
        bind (getProp (Some res) "output") (fun output =>
        if truthy output then
          let firstMessage :=
            match isArray output with
            | Some (first :: _) => Some first
            | _ => None
            end in
          if truthy firstMessage then
            bind (getProp firstMessage "content") (fun messageContent =>
            if truthy messageContent then
              match isArray messageContent with
              | Some items =>
                  bind (extractText items) (fun textContent =>
                  Returned (if JS.truthyStr textContent
                            then Some (JStr textContent) else None))
              | None => Threw TypeError
              end
            else outputTextHelper res)
          else outputTextHelper res
        else outputTextHelper res)
    end).

(** What the transport hands back: [request] rejects on a failed exchange
    and resolves with the response text otherwise. *)
Inductive Transport : Type :=
| Rejected (error : string)
| Resolved (response : string).

Section WithParser.

(** [JSON.parse]: [None] when it throws a [SyntaxError]. *)
Variable JSON_parse : string -> option JSON.

(** The [try] block of [getChatGPTCompletion]; the [catch] clause logs the
    error and throws it again. *)
Definition getChatGPTCompletion (answer : Transport) : Outcome JSValue :=
  match answer with
  | Rejected error => Threw error
  | Resolved response =>
      match JSON_parse response with
      | None => Threw "SyntaxError"
      | Some res => parseResponse res
      end
  end.

End WithParser.

End Client.


(* ================================================================= *)
(** ** The reply integrator ([generateNote] in [noteGenerator.ts]) *)

Module Integrator.

Record Edge : Type := {
  edge_id : string;
  edge_from : string;
  edge_to : string;
  edge_label : string
}.

(** The canvas: the notes, the edges, and the ids of the selected notes.
    A note object is shared between the canvas and whoever holds a reference
    to it, so notes are looked up and updated by [id]. *)
Record Canvas : Type := {
  nodes : list CanvasNode;
  edges : list Edge;
  selection : list string
}.

Definition assistantColor : string := "6".
Definition placeholderNoteHeight : Z := 60.

Definition updateNode (canvas : Canvas) (target : string)
    (f : CanvasNode -> CanvasNode) : Canvas :=
  {| nodes := map (fun n => if String.eqb (id n) target then f n else n) (nodes canvas);
     edges := edges canvas;
     selection := selection canvas |}.

(** Modelled from the spec: [createNode] of [./obsidian/canvas-patches] is
    missing; the spec describes node create as attaching a new note with
    initial text, size and role.  [newId] is the identifier the host gives
    it. *)
Definition createNode (canvas : Canvas) (newId : string) (text : string)
    (h : Z) (nodeColor nodeRole : option string) : Canvas * CanvasNode :=
  let created := {| id := newId; content := Some text; chat_role := nodeRole;
                    color := nodeColor; height := h |} in
  ({| nodes := nodes canvas ++ [created];
      edges := edges canvas;
      selection := selection canvas |}, created).

(** Modelled from the spec: [addEdge] of [./obsidian/canvas-patches] is
    missing; the spec describes edge create as adding a directed, labeled
    edge. *)
Definition addEdge (canvas : Canvas) (edgeID : string)
    (from to : CanvasNode) (label : string) : Canvas :=
  {| nodes := nodes canvas;
     edges := edges canvas ++
              [{| edge_id := edgeID; edge_from := id from; edge_to := id to;
                  edge_label := label |}];
     selection := selection canvas |}.

(** The host's [canvas.removeNode]: the note leaves the graph. *)
Definition removeNode (canvas : Canvas) (n : CanvasNode) : Canvas :=
  {| nodes := filter (fun m => negb (String.eqb (id m) (id n))) (nodes canvas);
     edges := edges canvas;
     selection := selection canvas |}.

(** The host's [canvas.selectOnly]. *)
Definition selectOnly (canvas : Canvas) (n : CanvasNode) : Canvas :=
  {| nodes := nodes canvas; edges := edges canvas; selection := [id n] |}.

(** The host's [node.setText]. *)
Definition setText (canvas : Canvas) (n : CanvasNode) (text : string) : Canvas :=
  updateNode canvas (id n)
    (fun m => {| id := id m; content := Some text; chat_role := chat_role m;
                 color := color m; height := height m |}).

(** The host's [node.moveAndResize], of which only the height changes here. *)
Definition moveAndResize (canvas : Canvas) (n : CanvasNode) (h : Z) : Canvas :=
  updateNode canvas (id n)
    (fun m => {| id := id m; content := content m; chat_role := chat_role m;
                 color := color m; height := h |}).

Definition findNode (canvas : Canvas) (target : string) : option CanvasNode :=
  find (fun n => String.eqb (id n) target) (nodes canvas).

(** What the generator observes when the awaited completion settles: the
    canvas as the user left it meanwhile, and the completion's outcome
    ([Promise<string | undefined>], or a rejection). *)
Definition Settled : Type := Canvas * Json.Outcome (option string).

Section WithHost.

Variable settings : ChatStreamSettings.
Variable encoding : Encoding.

(** The unfolding of the edges above a note that the walker traverses. *)
Variable ancestryOf : Canvas -> CanvasNode -> Ancestry.

(** [calcHeight] of [./obsidian/canvas-patches] (missing): the height for a
    text under a parent of a given height. *)
Variable calcHeight : string -> Z -> Z.

(** The fresh identifiers of the created note and edge. *)
Variable newNodeId : string.
Variable newEdgeId : string.

(** The part of [generateNote] after [await getChatGPTCompletion(...)]: the
    [try] block from the null test on, and the [catch] clause.  It returns
    the canvas and the notices shown. *)
Definition integrate (label : string) (node created : CanvasNode)
    (generated : Json.Outcome (option string)) (canvas : Canvas)
  : Canvas * list string :=
  match generated with
  | Json.Threw error =>
      (removeNode canvas created, ["Error calling GPT: " ++ error])
  | Json.Returned None =>
      (removeNode canvas created, ["Empty or unreadable response from GPT"])
  | Json.Returned (Some text) =>
      let c1 := setText canvas created text in
      let c2 := moveAndResize c1 created (calcHeight text (height node)) in
      let c3 := addEdge c2 newEdgeId node created label in
      let selectedNoteId :=
        match selection c3 with
        | [selected] => Some selected
        | _ => None
        end in
      match selectedNoteId with
      | Some selected =>
          if String.eqb selected (id node)
          then (selectOnly c3 created, [])
          else (c3, [])
      | None => (selectOnly c3 created, [])
      end
  end.

(** [generateNote(action, actionPrompt, explicitLabel)] on an active canvas.
    [await] is the suspension at the completion call. *)
Definition generateNote (actionName : string)
    (actionPrompt explicitLabel : option string)
    (await : Canvas -> list Message -> Settled)
    (canvas : Canvas) : Canvas * list string :=
  if negb (JS.truthyStr (apiKey settings)) then
    (canvas, ["Please set your OpenAI API key in the plugin settings"])
  else
    match selection canvas with
    | [selected] =>
        match findNode canvas selected with
        | Some node =>
            let built :=
              Builder.buildMessages settings encoding (ancestryOf canvas node)
                                    actionPrompt in
            match Builder.result_messages built with
            | [] => (canvas, [])
            | messages =>
                let (c1, created) :=
                  createNode canvas newNodeId
                    ("Calling AI (" ++ apiModel settings ++ ")...")
                    placeholderNoteHeight (Some assistantColor) (Some "assistant") in
                let sending :=
                  "Sending " ++ Json.decimal (Z.of_nat (List.length messages))
                  ++ " notes with " ++ Json.decimal (Builder.result_tokenCount built)
                  ++ " tokens to GPT" in
                let (c2, generated) := await c1 messages in
                let label :=
                  match explicitLabel with
                  | Some l => if JS.truthyStr l then l else actionName
                  | None => actionName
                  end in
                let (c3, notices) := integrate label node created generated c2 in
                (c3, sending :: notices)
            end
        | None => (canvas, [])
        end
    | _ => (canvas, [])
    end.

End WithHost.

(** The reply that [generateNote] receives from the client's outcome: a
    string is passed on, [undefined] and [null] are the values that
    [generated == null] accepts. *)
Definition replyOf (completion : Json.Outcome Json.JSValue)
  : Json.Outcome (option string) :=
  match completion with
  | Json.Threw e => Json.Threw e
  | Json.Returned None => Json.Returned None
  | Json.Returned (Some Json.JNull) => Json.Returned None
  | Json.Returned (Some j) => Json.Returned (Some (Json.toString j))
  end.

End Integrator.

(* ================================================================= *)
(** ** Vocabulary of the properties *)

Module Chain.

Import Builder.

Section WithSettings.

Variable settings : ChatStreamSettings.
Variable encoding : Encoding.

(** The walk of [visitNodeAndAncestors] on a single-parent chain, written
    as a loop over the chain (start node first). *)
Fixpoint walkChain (depth : Z) (l : list CanvasNode) (st : BuildState) : BuildState :=
  match l with
  | [] => st
  | n :: rest =>
      let (shouldContinue, st1) := visit settings encoding n depth st in
      if shouldContinue then walkChain (depth + 1) rest st1 else st1
  end.

(** The depth guard of [visit] lets a node at this depth through. *)
Definition depthAllowed (depth : Z) : bool :=
  negb (negb (maxDepth settings =? 0) && (depth >? maxDepth settings)).

(** The part of a chain that lies within the configured depth, counted
    from [depth]. *)
Definition withinDepthFrom (depth : Z) (l : list CanvasNode) : list CanvasNode :=
  if maxDepth settings =? 0 then l
  else firstn (Z.to_nat (maxDepth settings + 1 - depth)) l.

Definition withinDepth (l : list CanvasNode) : list CanvasNode :=
  withinDepthFrom 0 l.

(** Every note of [l], the first of which is at depth [d], passes the
    depth guard. *)
Definition allowedRun (d : Z) (l : list CanvasNode) : Prop :=
  forall i : nat, (i < List.length l)%nat ->
                  depthAllowed (d + Z.of_nat i) = true.

Definition isEmptyNode (n : CanvasNode) : bool :=
  negb (JS.truthyStr (nodeTextOf n)).

Definition isImageNode (n : CanvasNode) : bool :=
  JS.truthyStr (nodeTextOf n) && JS.startsWith (nodeTextOf n) "data:image".

Definition isMarkedNode (n : CanvasNode) : bool :=
  isSystemPromptNode (nodeTextOf n).

(** The notes whose text is tokenized: not empty, not an image reference,
    not marked as a system prompt. *)
Definition isTextNode (n : CanvasNode) : bool :=
  negb (isEmptyNode n) && negb (isImageNode n) && negb (isMarkedNode n).

Definition textMessage (n : CanvasNode) : Message :=
  {| content_of := CString (nodeTextOf n); role := roleOf n |}.

(** The message of a note that is emitted whole, if it is emitted at all. *)
Definition wholeMessage (n : CanvasNode) : list Message :=
  if isEmptyNode n then []
  else if isImageNode n then [imageMessage (nodeTextOf n)]
  else if isMarkedNode n then []
  else [textMessage n].

(** The whole messages of a chain given start node first, ordered root to
    leaf (oldest ancestor first). *)
Definition wholeMessages (l : list CanvasNode) : list Message :=
  rev (flat_map wholeMessage l).

Definition nodeTokens (n : CanvasNode) : Z :=
  if isTextNode n then tokenLength encoding (nodeTextOf n) else 0.

Definition chainTokens (l : list CanvasNode) : Z :=
  fold_right (fun n acc => nodeTokens n + acc) 0 l.

Definition hasTextNode (l : list CanvasNode) : bool := existsb isTextNode l.

(** The token cost of the text messages of a list. *)
Definition messageTokens (ms : list Message) : Z :=
  fold_right
    (fun m acc =>
       match content_of m with
       | CString s => tokenLength encoding s + acc
       | CArray _ => acc
       end) 0 ms.

Definition promptTokens (prompt : string) : Z :=
  if JS.truthyStr prompt then tokenLength encoding prompt else 0.

Definition systemPart (prompt : string) : list Message :=
  if JS.truthyStr prompt
  then [{| content_of := CString prompt; role := system |}]
  else [].

(** The tokens kept of a text when [running] tokens are already counted. *)
Definition keptTokens (running : Z) (text : string) : list nat :=
  JS.slice0 (encode encoding text) (getTokenLimit settings - running - 1).

Definition truncatedText (running : Z) (text : string) : string :=
  JS.strSlice0 text (String.length (decode encoding (keptTokens running text))).

Definition truncatedMessage (running : Z) (n : CanvasNode) : Message :=
  {| content_of := CString (truncatedText running (nodeTextOf n)); role := roleOf n |}.

(** No text note of [l] overflows when the count starts at [running]. *)
Definition noOverflow (running : Z) (l : list CanvasNode) : Prop :=
  hasTextNode l = false \/ running + chainTokens l <= getTokenLimit settings.

End WithSettings.

(** The note whose content marks it as a system prompt, as the resolver
    tests it. *)
Definition isPromptNote (n : CanvasNode) : bool :=
  match readNodeContent n with
  | Some text => JS.truthyStr text && isSystemPromptNode text
  | None => false
  end.

Definition contentText (n : CanvasNode) : string :=
  match content n with
  | Some text => text
  | None => EmptyString
  end.


(** A message that is not the system message and whose text, if it has one,
    is not marked as a system prompt. *)
Definition ordinary (m : Message) : Prop :=
  role m <> system /\
  forall s : string, content_of m = CString s -> isSystemPromptNode s = false.

(** Every note that the builder's walk reaches is filtered out: it is empty
    or white space only, or it is marked as a system prompt. *)
Fixpoint allVisitedFiltered (settings : ChatStreamSettings) (depth : Z)
    (t : Ancestry) : bool :=
  match t with
  | Anc n parents =>
      if depthAllowed settings depth then
        (isEmptyNode n || isMarkedNode n)
        && forallb (allVisitedFiltered settings (depth + 1)) parents
      else true
  end.

End Chain.

(** The reply shapes that the specification names, and the tests of
    [getChatGPTCompletion] read off a parsed body. *)
Module Shapes.

Import Json.

(** [res.key] of a value that is not [null]: a member of an object, and
    [undefined] for anything else. *)
Definition member (key : string) (res : JSON) : JSValue :=
  match res with
  | JObj members => lookupLast key members
  | _ => None
  end.

(** An item [{type: "output_text", text}] and its text. *)
Definition outputTextOf (item : JSON) : option string :=
  match member "type" item, member "text" item with
  | Some (JStr t), Some (JStr text) =>
      if String.eqb t "output_text" then Some text else None
  | _, _ => None
  end.

(** A content array all of whose items are tagged as output text. *)
Fixpoint outputTexts (items : list JSON) : option (list string) :=
  match items with
  | [] => Some []
  | item :: rest =>
      match outputTextOf item, outputTexts rest with
      | Some text, Some texts => Some (text :: texts)
      | _, _ => None
      end
  end.

(** [{content: [{type: "output_text", text}]}] *)
Definition inlineContent (res : JSON) : option (list string) :=
  match member "content" res with
  | Some (JArr items) => outputTexts items
  | _ => None
  end.

Definition firstMessage (res : JSON) : JSValue :=
  match member "output" res with
  | Some (JArr (first :: _)) => Some first
  | _ => None
  end.

(** [{output: [{content: [{type: "output_text", text}]}]}] *)
Definition nestedContent (res : JSON) : option (list string) :=
  match firstMessage res with
  | Some (JObj members) =>
      match lookupLast "content" members with
      | Some (JArr items) => outputTexts items
      | _ => None
      end
  | _ => None
  end.

(** [{output_text: string}] *)
Definition helperText (res : JSON) : option string :=
  match member "output_text" res with
  | Some (JStr text) => Some text
  | _ => None
  end.

(** [Array.isArray(res.content)] *)
Definition hasContentArray (res : JSON) : bool :=
  match member "content" res with
  | Some (JArr _) => true
  | _ => false
  end.

(** [firstMessage && firstMessage.content] *)
Definition firstMessageContent (res : JSON) : JSValue :=
  match firstMessage res with
  | Some first => if truthy (Some first) then member "content" first else None
  | None => None
  end.

Definition nonEmpty (text : string) : JSValue :=
  if JS.truthyStr text then Some (JStr text) else None.

End Shapes.

(* ================================================================= *)
(** ** The rest of [noteGenerator.ts] *)

Module Notes.

(** [DEFAULT_SETTINGS.apiModel] *)
Definition defaultApiModel : string := "gpt-3.5-turbo".

(** [getEncoding(settings)]; [encodingForModel] is js-tiktoken's lookup,
    [None] when it throws for a model name it does not know. *)
Definition getEncoding (encodingForModel : string -> option Encoding)
    (settings : ChatStreamSettings) : Json.Outcome Encoding :=
  let modelName :=
    if JS.truthyStr (apiModel settings) then apiModel settings else defaultApiModel in
  match encodingForModel modelName with
  | Some encoding => Json.Returned encoding
  | None =>
      match encodingForModel "gpt-3.5-turbo" with
      | Some encoding => Json.Returned encoding
      | None => Json.Threw "Error"
      end
  end.

(** [summarizeNote(note)] *)
Definition summarizeNote (note : string) : string :=
  let maxLength := 100%nat in
  if (String.length note <=? maxLength)%nat then note
  else (String.substring 0 maxLength note ++ "...")%string.

End Notes.

(* ================================================================= *)
(** ** The settings tab ([settings/SettingsTab.ts]) *)

Module SettingsTab.

(** [\d] *)
Definition isDigit (c : ascii) : bool :=
  let n := nat_of_ascii c in (48 <=? n)%nat && (n <=? 57)%nat.

(** [/^gpt-|^o\d/.test(model)] *)
Definition matchesFamily (model : string) : bool :=
  JS.startsWith model "gpt-"
  || match model with
     | String o (String d _) => Ascii.eqb o "o" && isDigit d
     | _ => false
     end.

(** The last [n] code units of a string, or the whole string when it is
    shorter. *)
Definition lastChars (n : nat) (s : string) : string :=
  String.substring (String.length s - n) n s.

(** [/-\d{4}-\d{2}-\d{2}$/.test(model)] *)
Definition isDatedSnapshot (model : string) : bool :=
  match list_ascii_of_string (lastChars 11 model) with
  | [h1; y1; y2; y3; y4; h2; m1; m2; h3; d1; d2] =>
      Ascii.eqb h1 "-" && isDigit y1 && isDigit y2 && isDigit y3 && isDigit y4
      && Ascii.eqb h2 "-" && isDigit m1 && isDigit m2
      && Ascii.eqb h3 "-" && isDigit d1 && isDigit d2
  | _ => false
  end.

Definition keepModel (model : string) : bool :=
  matchesFamily model && negb (isDatedSnapshot model).

(** [Array.prototype.sort()] without a comparator, on strings: ascending
    by code units.  The order is total and two strings that compare equal
    are the same string, so the result does not depend on the algorithm;
    it is computed here by insertion. *)
Fixpoint insertSorted (x : string) (l : list string) : list string :=
  match l with
  | [] => [x]
  | y :: rest => if String.leb x y then x :: l else y :: insertSorted x rest
  end.

Definition sortStrings (l : list string) : list string :=
  fold_right insertSorted [] l.

(** The options that [updateModelDropdownAndApiKeyStatus] adds to the
    dropdown for the fetched [models]. *)
Definition shownModels (models : list string) : list string :=
  sortStrings (filter keepModel models).

(** [s.replace(/\/+$/, '')] *)
Fixpoint stripTrailingSlashes (s : string) : string :=
  match s with
  | EmptyString => EmptyString
  | String c s' =>
      match stripTrailingSlashes s' with
      | EmptyString => if Ascii.eqb c "/" then EmptyString else String c EmptyString
      | t => String c t
      end
  end.

(** The [onChange] handler of the API URL field: the value of
    [settings.apiUrl] after the user typed [value]. *)
Definition apiUrlOnChange (current value : string) : string :=
  let trimmedValue := stripTrailingSlashes (JS.trim value) in
  if JS.truthyStr trimmedValue
     && (JS.startsWith trimmedValue "http://" || JS.startsWith trimmedValue "https://")
  then trimmedValue
  else current.

End SettingsTab.

(** Vocabulary of the further properties. *)
Module More.

Import Json.

(** The texts that [extractText] joins: the [text] members of the items
    tagged as output text, each as [join] prints it. *)
Definition taggedTexts (items : list JSON) : list string :=
  map (fun item => joinElement (Shapes.member "text" item))
      (filter (fun item => Client.isOutputText (Shapes.member "type" item)) items).

Definition hasNull (items : list JSON) : bool :=
  existsb (fun item => match item with JNull => true | _ => false end) items.

Definition isObject (res : JSON) : bool :=
  match res with JObj _ => true | _ => false end.

(** The ids of the notes of a canvas. *)
Definition noteIds (canvas : Integrator.Canvas) : list string :=
  map id (Integrator.nodes canvas).

(** A text message whose text starts the given text, or an image message. *)
Definition cutOf (text : string) (m : Message) : Prop :=
  match content_of m with
  | CString s => String.prefix s text = true
  | CArray _ => True
  end.

End More.

(* ================================================================= *)
(** ** Sample inputs *)

Module Samples.

Definition settingsWith (prompt : string) (limit depth : Z) : ChatStreamSettings :=
  {| apiKey := "sk-test"; apiModel := "gpt-4o"; systemPrompt := prompt;
     maxInputTokens := limit; maxResponseTokens := 0; maxDepth := depth |}.

Definition note (i text : string) : CanvasNode :=
  {| id := i; content := Some text; chat_role := None; color := None; height := 60 |}.

Definition reply (i text : string) : CanvasNode :=
  {| id := i; content := Some text; chat_role := Some "assistant";
     color := Some "6"; height := 60 |}.

Definition emptyState (count : Z) : Builder.BuildState :=
  {| Builder.messages := []; Builder.tokenCount := count; Builder.debugLog := [] |}.


Definition outputText (text : string) : Json.JSON :=
  Json.JObj [("type", Json.JStr "output_text"); ("text", Json.JStr text)].

End Samples.

(* ================================================================= *)
(** ** Facts about strings and slices *)

Module JSFacts.

Import JS.

Lemma prefix_nil (s : string) : String.prefix EmptyString s = true.
Proof. destruct s; reflexivity. Qed.

Ltac prefix_done := first [reflexivity | apply prefix_nil | assumption].

Lemma prefix_refl (s : string) : String.prefix s s = true.
Proof.
  induction s as [|c s IH]; simpl; [reflexivity|].
  destruct (ascii_dec c c); [exact IH | congruence].
Qed.

Lemma prefix_trans (a b c : string) :
  String.prefix a b = true -> String.prefix b c = true -> String.prefix a c = true.
Proof.
  revert a b; induction c as [|z c IH]; intros a b Hab Hbc.
  - destruct b; [|discriminate]. destruct a; [reflexivity|discriminate].
  - destruct a as [|x a]; [reflexivity|].
    destruct b as [|y b]; [discriminate|].
    simpl in *.
    destruct (ascii_dec x y); [subst|discriminate].
    destruct (ascii_dec y z); [|discriminate].
    eapply IH; eassumption.
Qed.

Lemma prefix_substring (k : nat) (t : string) :
  String.prefix (String.substring 0 k t) t = true.
Proof.
  revert k; induction t as [|c t IH]; intros [|k]; simpl;
    try prefix_done.
  destruct (ascii_dec c c); [apply IH | congruence].
Qed.

Lemma prefix_trimEnd_self (u : string) : String.prefix (trimEnd u) u = true.
Proof.
  induction u as [|c u IH]; simpl; [reflexivity|].
  destruct (trimEnd u) as [|d t] eqn:E.
  - destruct (isWhiteSpace c); simpl; [reflexivity|].
    destruct (ascii_dec c c); [prefix_done | congruence].
  - simpl. destruct (ascii_dec c c); [exact IH | congruence].
Qed.

Lemma prefix_trimStart_substring (k : nat) (t : string) :
  String.prefix (trimStart (String.substring 0 k t)) (trimStart t) = true.
Proof.
  revert k; induction t as [|c t IH]; intros [|k]; simpl;
    try prefix_done.
  destruct (isWhiteSpace c); [apply IH|].
  simpl. destruct (ascii_dec c c); [apply prefix_substring | congruence].
Qed.

(** A prefix that ends in a character other than white space survives
    [trimEnd]. *)
Lemma prefix_trimEnd (q : string) (c : ascii) (v : string) :
  isWhiteSpace c = false ->
  String.prefix (q ++ String c EmptyString) v = true ->
  String.prefix (q ++ String c EmptyString) (trimEnd v) = true.
Proof.
  intros Hc. revert v; induction q as [|a q IH]; intros v Hp.
  - destruct v as [|b v]; [discriminate|].
    simpl in Hp. destruct (ascii_dec c b); [subst b|discriminate].
    simpl. destruct (trimEnd v); [rewrite Hc|]; simpl;
      (destruct (ascii_dec c c); [prefix_done | congruence]).
  - destruct v as [|b v]; [discriminate|].
    simpl in Hp. destruct (ascii_dec a b); [subst b|discriminate].
    specialize (IH v Hp).
    simpl. destruct (trimEnd v) as [|d t] eqn:E.
    + destruct q; discriminate.
    + simpl. destruct (ascii_dec a a); [exact IH | congruence].
Qed.

(** A prefix that starts and ends with characters other than white space
    survives [trim]. *)
Lemma startsWith_trim (a : ascii) (q : string) (c : ascii) (s : string) :
  isWhiteSpace a = false ->
  isWhiteSpace c = false ->
  startsWith s (String a (q ++ String c EmptyString)) = true ->
  startsWith (trim s) (String a (q ++ String c EmptyString)) = true.
Proof.
  intros Ha Hc Hp. unfold startsWith, trim in *.
  destruct s as [|b s]; [discriminate|].
  assert (b = a) as ->.
  { simpl in Hp. destruct (ascii_dec a b); [congruence|discriminate]. }
  simpl trimStart. rewrite Ha.
  apply (prefix_trimEnd (String a q) c); assumption.
Qed.

Lemma startsWith_trim_slice (a : ascii) (q : string) (c : ascii) (k : nat) (t : string) :
  isWhiteSpace c = false ->
  startsWith (trim (strSlice0 t k)) (String a (q ++ String c EmptyString)) = true ->
  startsWith (trim t) (String a (q ++ String c EmptyString)) = true.
Proof.
  intros Hc Hp. unfold startsWith, trim, strSlice0 in *.
  apply (prefix_trimEnd (String a q) c); [assumption|].
  eapply prefix_trans; [|apply (prefix_trimStart_substring k t)].
  eapply prefix_trans; [exact Hp|apply prefix_trimEnd_self].
Qed.

Lemma startsWith_first (s p q : string) (a b : ascii) :
  startsWith s (String a p) = true -> startsWith s (String b q) = true -> a = b.
Proof.
  unfold startsWith. destruct s as [|c s]; [discriminate|]. simpl.
  destruct (ascii_dec a c); [|discriminate].
  destruct (ascii_dec b c); [|discriminate]. congruence.
Qed.

Lemma append_assoc (a b c : string) :
  ((a ++ b) ++ c)%string = (a ++ (b ++ c))%string.
Proof. induction a as [|x a IH]; simpl; [reflexivity|]. rewrite IH. reflexivity. Qed.

Lemma slice0_length {A : Type} (a : list A) (e : Z) :
  (0 <= e -> Z.of_nat (List.length (slice0 a e)) <= e) /\
  (e < 0 -> Z.of_nat (List.length (slice0 a e))
            = Z.max (Z.of_nat (List.length a) + e) 0) /\
  (List.length (slice0 a e) <= List.length a)%nat.
Proof.
  unfold slice0. rewrite length_firstn.
  set (len := List.length a).
  destruct (e <? 0) eqn:E; [apply Z.ltb_lt in E | apply Z.ltb_ge in E];
    repeat split; lia.
Qed.

End JSFacts.

(* ================================================================= *)
(** ** The visitor of the builder, case by case *)

Module VisitFacts.

Import Builder Chain.

Section WithSettings.

Variable settings : ChatStreamSettings.
Variable encoding : Encoding.

Local Abbreviation limit := (getTokenLimit settings).
Local Abbreviation visit := (visit settings encoding).

Lemma getTokenLimit_pos : 0 < limit.
Proof.
  unfold getTokenLimit.
  destruct (maxInputTokens settings =? 0) eqn:E0; simpl; [lia|].
  destruct (maxInputTokens settings >? 0) eqn:E1; [|lia].
  apply Z.gtb_lt in E1. lia.
Qed.

(** [visit], with its tests named. *)
Lemma visit_cases (n : CanvasNode) (depth : Z) (st : BuildState) :
  visit n depth st =
  if negb (depthAllowed settings depth) then (false, st)
  else if isEmptyNode n then (true, st)
  else if isImageNode n then
    (true, {| messages := imageMessage (nodeTextOf n) :: messages st;
              tokenCount := tokenCount st;
              debugLog := debugLog st |})
  else if isMarkedNode n then (true, st)
  else if tokenCount st + tokenLength encoding (nodeTextOf n) >? limit then
    (false, {| messages := truncatedMessage settings encoding (tokenCount st) n
                           :: messages st;
               tokenCount := tokenCount st
                             + Z.of_nat (List.length
                                 (keptTokens settings encoding (tokenCount st)
                                             (nodeTextOf n)));
               debugLog := debugLog st ++
                 [(String.length (nodeTextOf n),
                   String.length (decode encoding
                     (keptTokens settings encoding (tokenCount st) (nodeTextOf n))))] |})
  else
    (true, {| messages := textMessage n :: messages st;
              tokenCount := tokenCount st + tokenLength encoding (nodeTextOf n);
              debugLog := debugLog st |}).
Proof.
  unfold Builder.visit, depthAllowed, isEmptyNode, isImageNode, isMarkedNode.
  destruct (negb (maxDepth settings =? 0) && (depth >? maxDepth settings));
    [reflexivity|].
  simpl negb.
  destruct (JS.truthyStr (nodeTextOf n)); [|reflexivity].
  simpl.
  destruct (JS.startsWith (nodeTextOf n) "data:image"); [reflexivity|].
  destruct (isSystemPromptNode (nodeTextOf n)); reflexivity.
Qed.

Lemma visit_blocked (n : CanvasNode) (depth : Z) (st : BuildState) :
  depthAllowed settings depth = false -> visit n depth st = (false, st).
Proof. intros H. rewrite visit_cases, H. reflexivity. Qed.

Lemma visit_text_fits (n : CanvasNode) (depth : Z) (st : BuildState) :
  depthAllowed settings depth = true ->
  isTextNode n = true ->
  tokenCount st + tokenLength encoding (nodeTextOf n) <= limit ->
  visit n depth st =
  (true, {| messages := textMessage n :: messages st;
            tokenCount := tokenCount st + tokenLength encoding (nodeTextOf n);
            debugLog := debugLog st |}).
Proof.
  intros Hd Ht Hfit. rewrite visit_cases, Hd. unfold isTextNode in Ht.
  destruct (isEmptyNode n); [discriminate|].
  destruct (isImageNode n); [discriminate|].
  destruct (isMarkedNode n); [discriminate|]. simpl.
  destruct (_ >? _) eqn:E; [apply Z.gtb_lt in E; lia|reflexivity].
Qed.

Lemma visit_text_overflow (n : CanvasNode) (depth : Z) (st : BuildState) :
  depthAllowed settings depth = true ->
  isTextNode n = true ->
  limit < tokenCount st + tokenLength encoding (nodeTextOf n) ->
  visit n depth st =
  (false, {| messages := truncatedMessage settings encoding (tokenCount st) n
                         :: messages st;
             tokenCount := tokenCount st
                           + Z.of_nat (List.length
                               (keptTokens settings encoding (tokenCount st)
                                           (nodeTextOf n)));
             debugLog := debugLog st ++
               [(String.length (nodeTextOf n),
                 String.length (decode encoding
                   (keptTokens settings encoding (tokenCount st) (nodeTextOf n))))] |}).
Proof.
  intros Hd Ht Hover. rewrite visit_cases, Hd. unfold isTextNode in Ht.
  destruct (isEmptyNode n); [discriminate|].
  destruct (isImageNode n); [discriminate|].
  destruct (isMarkedNode n); [discriminate|]. simpl.
  destruct (_ >? _) eqn:E; [reflexivity|].
  rewrite Z.gtb_ltb in E. apply Z.ltb_ge in E. lia.
Qed.

(** A note that is not tokenized is passed over, or emitted as an image. *)
Lemma visit_other (n : CanvasNode) (depth : Z) (st : BuildState) :
  depthAllowed settings depth = true ->
  isTextNode n = false ->
  visit n depth st =
  (true, {| messages := wholeMessage n ++ messages st;
            tokenCount := tokenCount st;
            debugLog := debugLog st |}).
Proof.
  intros Hd Ht. rewrite visit_cases, Hd. unfold isTextNode in Ht.
  unfold wholeMessage. destruct st as [ms tc lg].
  destruct (isEmptyNode n); [reflexivity|].
  destruct (isImageNode n); [reflexivity|].
  destruct (isMarkedNode n); [reflexivity|discriminate].
Qed.

End WithSettings.

End VisitFacts.

(* ================================================================= *)
(** ** Truncation and the token limit *)

Import Builder Chain Samples.

(** Below the limit the margin is kept.  When [visit] truncates a text note
    (the running count plus the note's tokens exceeds the input limit) and
    the running count is still below the limit, the walk is told to stop,
    exactly one truncation is logged, and the kept tokens bring the accepted
    count to at most [limit - 1]; the same bound holds for the re-encoded
    count of the result when re-encoding the truncated text gives back the
    kept token prefix. *)
Lemma truncation_keeps_margin
    (settings : ChatStreamSettings) (encoding : Encoding)
    (node : CanvasNode) (depth : Z) (st : BuildState) :
  depthAllowed settings depth = true ->
  isTextNode node = true ->
  getTokenLimit settings < tokenCount st + tokenLength encoding (nodeTextOf node) ->
  tokenCount st < getTokenLimit settings ->
  let kept := keptTokens settings encoding (tokenCount st) (nodeTextOf node) in
  let truncated := truncatedText settings encoding (tokenCount st) (nodeTextOf node) in
  let after := snd (visit settings encoding node depth st) in
  fst (visit settings encoding node depth st) = false /\
  messages after
    = {| content_of := CString truncated; role := roleOf node |} :: messages st /\
  tokenCount after = tokenCount st + Z.of_nat (List.length kept) /\
  tokenCount after <= getTokenLimit settings - 1 /\
  List.length (debugLog after) = S (List.length (debugLog st)) /\
  (encode encoding truncated = kept ->
   tokenCount st + tokenLength encoding truncated <= getTokenLimit settings - 1).
Proof.
  intros Hd Ht Hover Hbelow kept truncated after.
  subst after. rewrite (VisitFacts.visit_text_overflow _ _ _ _ _ Hd Ht Hover).
  simpl fst; simpl snd; simpl messages; simpl tokenCount; simpl debugLog.
  fold kept.
  assert (Hk : Z.of_nat (List.length kept) <= getTokenLimit settings - tokenCount st - 1).
  { unfold kept, keptTokens.
    apply (proj1 (JSFacts.slice0_length _ _)). lia. }
  repeat split.
  - lia.
  - rewrite length_app. simpl. lia.
  - intros Hre. unfold tokenLength. rewrite Hre. lia.
Qed.

(** A system prompt longer than the limit, which the builder does not check
    for: with a prompt of five tokens and an input limit of three,
    truncating a note of ten tokens keeps seven of them (the slice bound
    [3 - 5 - 1] is negative and counts from the end). *)
Lemma truncation_overflows_after_long_prompt :
  let settings := settingsWith "abcde" 3 0 in
  let start := chain (note "n1" "uvwxyz1234") [] in
  let after := walk settings charEncoding start in
  getTokenLimit settings = 3 /\
  tokenCount (initialState charEncoding (getSystemPrompt settings start)) = 5 /\
  after = {| messages := [{| content_of := CString "uvwxyz1"; role := user |}];
             tokenCount := 12;
             debugLog := [(10%nat, 7%nat)] |} /\
  ~ (tokenLength charEncoding "uvwxyz1" <= getTokenLimit settings - 1) /\
  ~ (tokenCount after <= getTokenLimit settings) /\
  ~ (result_tokenCount (buildMessages settings charEncoding start None)
     <= getTokenLimit settings).
Proof.
  vm_compute. repeat split; try reflexivity; intros H; apply H; reflexivity.
Qed.

(** C1 at the failing input.  With an empty system prompt and an input
    limit of 5, the note [abcde] fits exactly (count 5) and its parent
    [uvwxyz1234] overflows.  The slice bound is [5 - 5 - 1 = -1], which
    counts from the end of the token array: nine of the ten tokens are kept,
    the truncated text re-encodes to nine tokens, more than [limit - 1], and
    the accepted count is 14, more than the limit. *)
Theorem truncation_overflows_at_exact_fit :
  let settings := settingsWith "" 5 0 in
  let start := chain (note "n1" "abcde") [note "n0" "uvwxyz1234"] in
  let after := walk settings charEncoding start in
  getTokenLimit settings = 5 /\
  tokenCount (initialState charEncoding (getSystemPrompt settings start)) = 0 /\
  keptTokens settings charEncoding 5 "uvwxyz1234"
  = encode charEncoding "uvwxyz123" /\
  after = {| messages := [{| content_of := CString "uvwxyz123"; role := user |};
                          {| content_of := CString "abcde"; role := user |}];
             tokenCount := 14;
             debugLog := [(10%nat, 9%nat)] |} /\
  ~ (tokenLength charEncoding "uvwxyz123" <= getTokenLimit settings - 1) /\
  ~ (tokenCount after <= getTokenLimit settings) /\
  ~ (result_tokenCount (buildMessages settings charEncoding start None)
     <= getTokenLimit settings).
Proof.
  vm_compute. repeat split; try reflexivity; intros H; apply H; reflexivity.
Qed.

(* ================================================================= *)
(** ** Image notes *)

(** C7.  A note whose content starts with [data:image] and that passes the
    depth guard is emitted as a user message with an image payload whatever
    the running token count is; the count and the truncation log are left
    as they were, and the walk continues. *)
Theorem image_note_emitted
    (settings : ChatStreamSettings) (encoding : Encoding)
    (node : CanvasNode) (depth : Z) (st : BuildState) (c : string) :
  depthAllowed settings depth = true ->
  content node = Some c ->
  JS.startsWith c "data:image" = true ->
  visit settings encoding node depth st
  = (true,
     {| messages :=
          {| content_of :=
               CArray [Json.JObj [("type", Json.JStr "image_url");
                                  ("image_url",
                                   Json.JObj [("url", Json.JStr (JS.trim c))])]];
             role := user |} :: messages st;
        tokenCount := tokenCount st;
        debugLog := debugLog st |}).
Proof.
  intros Hd Hc Hp.
  assert (Ht : JS.startsWith (JS.trim c) "data:image" = true).
  { apply (JSFacts.startsWith_trim "d" "ata:imag" "e"); [reflexivity..|exact Hp]. }
  assert (Hn : nodeTextOf node = JS.trim c).
  { unfold nodeTextOf, readNodeContent. rewrite Hc. reflexivity. }
  rewrite VisitFacts.visit_cases, Hd. simpl negb. cbv iota.
  unfold isEmptyNode, isImageNode. rewrite Hn, Ht.
  destruct (JS.trim c) eqn:E; [discriminate|]. reflexivity.
Qed.

Lemma image_note_emitted_witness :
  let settings := settingsWith "" 5 0 in
  let image := "data:image/png;base64,iVBORw0KGgo=" in
  visit settings charEncoding (note "img" image) 2 (emptyState 5000)
  = (true,
     {| messages :=
          [{| content_of :=
                CArray [Json.JObj [("type", Json.JStr "image_url");
                                   ("image_url", Json.JObj [("url", Json.JStr image)])]];
              role := user |}];
        tokenCount := 5000;
        debugLog := [] |}).
Proof.
  intros settings image.
  apply (image_note_emitted settings charEncoding (note "img" image) 2
                            (emptyState 5000) image); reflexivity.
Defined.

(* ================================================================= *)
(** ** The walk over an ancestry *)

Local Open Scope list_scope.

Module WalkFacts.

(** Induction over an ancestry, with the hypothesis for every parent
    subtree. *)
Lemma Ancestry_parents_ind (P : Ancestry -> Prop) :
  (forall n parents, Forall P parents -> P (Anc n parents)) ->
  forall t, P t.
Proof.
  intros step. fix IH 1. intros [n parents]. apply step.
  induction parents as [|p ps IHps]; constructor; [apply IH | exact IHps].
Qed.

(** A property of the captured state that every call of the visitor keeps
    is kept by the walk. *)
Lemma walk_invariant {S : Type} (visitor : CanvasNode -> Z -> S -> bool * S)
    (Inv : S -> Prop) :
  (forall n d s, Inv s -> Inv (snd (visitor n d s))) ->
  forall t d s, Inv s -> Inv (visitNodeAndAncestors visitor t d s).
Proof.
  intros Hstep t. induction t as [n parents IH] using Ancestry_parents_ind.
  intros d s Hs. simpl.
  pose proof (Hstep n d s Hs) as H1.
  destruct (visitor n d s) as [shouldContinue s1]. simpl in H1.
  destruct shouldContinue; [|exact H1].
  revert s1 H1. induction IH as [|p ps Hp _ IHps]; intros s1 H1; simpl.
  - exact H1.
  - apply IHps. apply Hp. exact H1.
Qed.

(** On a single-parent chain the walk is a loop that ends at the first falsy
    answer. *)
Lemma walk_chain {S : Type} (visitor : CanvasNode -> Z -> S -> bool * S)
    (rest : list CanvasNode) :
  forall (n : CanvasNode) (d : Z) (s : S),
    visitNodeAndAncestors visitor (chain n rest) d s
    = (fix loop (depth : Z) (l : list CanvasNode) (acc : S) : S :=
         match l with
         | [] => acc
         | m :: l' =>
             let (shouldContinue, acc1) := visitor m depth acc in
             if shouldContinue then loop (depth + 1) l' acc1 else acc1
         end) d (n :: rest) s.
Proof.
  induction rest as [|p rest IH]; intros n d s; simpl.
  - destruct (visitor n d s) as [[] s1]; reflexivity.
  - destruct (visitor n d s) as [[] s1]; [|reflexivity].
    rewrite IH. reflexivity.
Qed.

End WalkFacts.

Module ChainFacts.

Import Builder Chain.

Section WithSettings.

Variable settings : ChatStreamSettings.
Variable encoding : Encoding.

Local Abbreviation limit := (getTokenLimit settings).

Lemma walk_is_walkChain (n : CanvasNode) (rest : list CanvasNode) (d : Z) (st : BuildState) :
  visitNodeAndAncestors (visit settings encoding) (chain n rest) d st
  = walkChain settings encoding d (n :: rest) st.
Proof. rewrite WalkFacts.walk_chain. reflexivity. Qed.

Lemma allowedRun_cons (d : Z) (n : CanvasNode) (l : list CanvasNode) :
  allowedRun settings d (n :: l) ->
  depthAllowed settings d = true /\ allowedRun settings (d + 1) l.
Proof.
  intros H. split.
  - specialize (H 0%nat). rewrite Z.add_0_r in H. apply H. simpl. lia.
  - intros i Hi. specialize (H (S i)).
    replace (d + 1 + Z.of_nat i) with (d + Z.of_nat (S i)) by lia.
    apply H. simpl. lia.
Qed.


Lemma allowedRun_withinDepthFrom (d : Z) (l : list CanvasNode) :
  0 <= d -> allowedRun settings d (withinDepthFrom settings d l).
Proof.
  intros Hd i Hi. unfold withinDepthFrom in Hi. unfold depthAllowed.
  destruct (maxDepth settings =? 0) eqn:E; [reflexivity|]. simpl.
  rewrite length_firstn in Hi.
  destruct (_ >? _) eqn:G; [|reflexivity].
  apply Z.gtb_lt in G. lia.
Qed.

Lemma walkChain_withinDepthFrom (l : list CanvasNode) :
  forall (d : Z) (st : BuildState),
    0 <= d ->
    walkChain settings encoding d l st
    = walkChain settings encoding d (withinDepthFrom settings d l) st.
Proof.
  induction l as [|n rest IH]; intros d st Hd.
  - unfold withinDepthFrom. destruct (_ =? _); [reflexivity|].
    rewrite firstn_nil. reflexivity.
  - unfold withinDepthFrom.
    destruct (maxDepth settings =? 0) eqn:E; [reflexivity|].
    destruct (Z.to_nat (maxDepth settings + 1 - d)) as [|k] eqn:K.
    + simpl. rewrite VisitFacts.visit_blocked; [reflexivity|].
      unfold depthAllowed. rewrite E. simpl.
      destruct (d >? maxDepth settings) eqn:G; [reflexivity|].
      rewrite Z.gtb_ltb in G. apply Z.ltb_ge in G. lia.
    + simpl.
      destruct (visit settings encoding n d st) as [[] st1]; [|reflexivity].
      rewrite IH by lia. unfold withinDepthFrom. rewrite E.
      replace (Z.to_nat (maxDepth settings + 1 - (d + 1))) with k by lia.
      reflexivity.
Qed.

Lemma tokenLength_nonneg (text : string) : 0 <= tokenLength encoding text.
Proof. unfold tokenLength. lia. Qed.

Lemma nodeTokens_nonneg (n : CanvasNode) : 0 <= nodeTokens encoding n.
Proof. unfold nodeTokens. destruct (isTextNode n); [apply tokenLength_nonneg|lia]. Qed.

Lemma chainTokens_nonneg (l : list CanvasNode) : 0 <= chainTokens encoding l.
Proof.
  induction l as [|n l IH]; simpl; [lia|].
  pose proof (nodeTokens_nonneg n). lia.
Qed.


Lemma chainTokens_app (l1 l2 : list CanvasNode) :
  chainTokens encoding (l1 ++ l2) = chainTokens encoding l1 + chainTokens encoding l2.
Proof. induction l1 as [|n l1 IH]; simpl; [reflexivity|]. rewrite IH. lia. Qed.

Lemma rev_wholeMessage (n : CanvasNode) : rev (wholeMessage n) = wholeMessage n.
Proof.
  unfold wholeMessage.
  destruct (isEmptyNode n); [reflexivity|].
  destruct (isImageNode n); [reflexivity|].
  destruct (isMarkedNode n); reflexivity.
Qed.

Lemma wholeMessages_cons (n : CanvasNode) (l : list CanvasNode) :
  wholeMessages (n :: l) = (wholeMessages l ++ wholeMessage n)%list.
Proof.
  unfold wholeMessages. simpl. rewrite rev_app_distr, rev_wholeMessage. reflexivity.
Qed.

Lemma wholeMessage_text (n : CanvasNode) :
  isTextNode n = true -> wholeMessage n = [textMessage n].
Proof.
  unfold isTextNode, wholeMessage. intros H.
  destruct (isEmptyNode n); [discriminate|].
  destruct (isImageNode n); [discriminate|].
  destruct (isMarkedNode n); [discriminate|reflexivity].
Qed.

(** The notes of [pre] are emitted whole when none of them overflows. *)
Lemma walkChain_fit (pre rest : list CanvasNode) :
  forall (d : Z) (st : BuildState),
    allowedRun settings d pre ->
    noOverflow settings encoding (tokenCount st) pre ->
    walkChain settings encoding d (pre ++ rest) st
    = walkChain settings encoding (d + Z.of_nat (List.length pre)) rest
        {| messages := wholeMessages pre ++ messages st;
           tokenCount := tokenCount st + chainTokens encoding pre;
           debugLog := debugLog st |}.
Proof.
  induction pre as [|n pre IH]; intros d st Hrun Hfit.
  - simpl. rewrite !Z.add_0_r. destruct st; reflexivity.
  - apply allowedRun_cons in Hrun as [Hd Hrun].
    change ((n :: pre) ++ rest) with (n :: (pre ++ rest)).
    cbn [walkChain].
    replace (d + Z.of_nat (List.length (n :: pre)))
      with (d + 1 + Z.of_nat (List.length pre)) by (simpl List.length; lia).
    destruct (isTextNode n) eqn:Ht.
    + assert (Hsum : tokenCount st + chainTokens encoding (n :: pre) <= limit).
      { destruct Hfit as [Hno|Hle]; [|exact Hle].
        simpl in Hno. rewrite Ht in Hno. discriminate. }
      simpl chainTokens in Hsum. unfold nodeTokens in Hsum. rewrite Ht in Hsum.
      pose proof (chainTokens_nonneg pre) as Hpos.
      rewrite VisitFacts.visit_text_fits by (assumption || lia).
      rewrite IH; [|exact Hrun|right; simpl; lia].
      cbn [messages tokenCount debugLog].
      rewrite wholeMessages_cons, (wholeMessage_text n Ht), <- app_assoc.
      simpl chainTokens. unfold nodeTokens. rewrite Ht.
      simpl app. do 2 f_equal. lia.
    + rewrite VisitFacts.visit_other by assumption.
      rewrite IH; [|exact Hrun|].
      * cbn [messages tokenCount debugLog].
        rewrite wholeMessages_cons, <- app_assoc.
        simpl chainTokens. unfold nodeTokens. rewrite Ht.
        reflexivity.
      * cbn [tokenCount].
        destruct Hfit as [Hno|Hle].
        -- left. simpl in Hno. rewrite Ht in Hno. exact Hno.
        -- right. simpl in Hle. unfold nodeTokens in Hle. rewrite Ht in Hle. lia.
Qed.


Lemma messageTokens_app (a b : list Message) :
  messageTokens encoding (a ++ b) = messageTokens encoding a + messageTokens encoding b.
Proof.
  induction a as [|m a IH]; simpl; [reflexivity|].
  destruct (content_of m); rewrite IH; lia.
Qed.

Lemma messageTokens_wholeMessage (n : CanvasNode) :
  messageTokens encoding (wholeMessage n) = nodeTokens encoding n.
Proof.
  unfold wholeMessage, nodeTokens, isTextNode.
  destruct (isEmptyNode n); [reflexivity|].
  destruct (isImageNode n); [reflexivity|].
  destruct (isMarkedNode n); simpl; lia.
Qed.

Lemma messageTokens_wholeMessages (l : list CanvasNode) :
  messageTokens encoding (wholeMessages l) = chainTokens encoding l.
Proof.
  induction l as [|n l IH]; [reflexivity|].
  rewrite wholeMessages_cons, messageTokens_app, IH, messageTokens_wholeMessage.
  simpl. lia.
Qed.

End WithSettings.

End ChainFacts.

(* ================================================================= *)
(** ** Builds over a single-parent chain *)

Lemma walk_on_chain (settings : ChatStreamSettings) (encoding : Encoding)
    (n : CanvasNode) (ancestors : list CanvasNode) :
  walk settings encoding (chain n ancestors)
  = walkChain settings encoding 0
      (withinDepth settings (n :: ancestors) ++ [])
      {| messages := [];
         tokenCount :=
           promptTokens encoding (getSystemPrompt settings (chain n ancestors));
         debugLog := [] |}.
Proof.
  unfold walk. rewrite ChainFacts.walk_is_walkChain.
  rewrite ChainFacts.walkChain_withinDepthFrom by lia.
  rewrite app_nil_r. reflexivity.
Qed.

(** C3, as amended.  On a single-parent chain, let [visited] be the notes
    within the configured depth (all of them when the depth is 0).  When the
    system prompt's tokens plus the tokens of the text notes of [visited] do
    not exceed the input limit, nothing is truncated and [buildMessages]
    without an action prompt returns, after the system message if the prompt
    is not empty, one whole message for every note of [visited] that is
    neither empty nor marked as a system prompt, oldest ancestor first; the
    token count is the system prompt's tokens plus the tokens of the text
    messages.  When no note yields a message the result is the empty list
    with count 0. *)
Theorem under_limit_build
    (settings : ChatStreamSettings) (encoding : Encoding)
    (n : CanvasNode) (ancestors : list CanvasNode) :
  let start := chain n ancestors in
  let visited := withinDepth settings (n :: ancestors) in
  let prompt := getSystemPrompt settings start in
  promptTokens encoding prompt + chainTokens encoding visited
    <= getTokenLimit settings ->
  debugLog (walk settings encoding start) = [] /\
  buildMessages settings encoding start None =
    match wholeMessages visited with
    | [] => {| result_messages := []; result_tokenCount := 0 |}
    | _ :: _ =>
        {| result_messages := systemPart prompt ++ wholeMessages visited;
           result_tokenCount :=
             promptTokens encoding prompt
             + messageTokens encoding (wholeMessages visited) |}
    end.
Proof.
  intros start visited prompt Hfit.
  assert (Hwalk : walk settings encoding start
                  = {| messages := wholeMessages visited;
                       tokenCount := promptTokens encoding prompt
                                     + chainTokens encoding visited;
                       debugLog := [] |}).
  { unfold start. rewrite walk_on_chain.
    rewrite ChainFacts.walkChain_fit.
    - simpl. rewrite app_nil_r. reflexivity.
    - apply ChainFacts.allowedRun_withinDepthFrom. lia.
    - right. exact Hfit. }
  split; [rewrite Hwalk; reflexivity|].
  unfold buildMessages. rewrite Hwalk. cbn [messages tokenCount].
  rewrite ChainFacts.messageTokens_wholeMessages.
  destruct (wholeMessages visited) as [|m ms]; [reflexivity|].
  fold start. fold prompt. unfold systemPart.
  destruct (JS.truthyStr prompt); reflexivity.
Qed.

Lemma under_limit_build_witness :
  let settings := settingsWith "Be brief." 50 0 in
  let start := chain (reply "n3" "  fine  ")
                     [note "n2" "data:image/png;base64,AAAA";
                      note "n1" "SYSTEM PROMPT terse";
                      note "n0" "hello"] in
  buildMessages settings charEncoding start None
  = {| result_messages :=
         [{| content_of := CString "SYSTEM PROMPT terse"; role := system |};
          {| content_of := CString "hello"; role := user |};
          imageMessage "data:image/png;base64,AAAA";
          {| content_of := CString "fine"; role := assistant |}];
       result_tokenCount := 19 + (5 + 4) |}.
Proof.
  intros settings start.
  assert (Hfit : promptTokens charEncoding (getSystemPrompt settings start)
                 + chainTokens charEncoding
                     (withinDepth settings
                        [reply "n3" "  fine  ";
                         note "n2" "data:image/png;base64,AAAA";
                         note "n1" "SYSTEM PROMPT terse";
                         note "n0" "hello"])
                 <= getTokenLimit settings)
    by (vm_compute; discriminate).
  exact (proj2 (under_limit_build settings charEncoding (reply "n3" "  fine  ")
                  [note "n2" "data:image/png;base64,AAAA";
                   note "n1" "SYSTEM PROMPT terse";
                   note "n0" "hello"] Hfit)).
Defined.

(** C3, as stated, fails in two ways.  With a depth limit of 1 the third
    note of a chain is not returned although the chain is far below the
    limit; and when the only note is marked as a system prompt the returned
    count is 0, not the system prompt's token length. *)
Lemma under_limit_build_misses_deep_notes :
  let limited := settingsWith "" 50 1 in
  let deep := chain (note "n2" "ab") [note "n1" "cd"; note "n0" "ef"] in
  let marked := chain (note "n0" "SYSTEM PROMPT x") [] in
  (chainTokens charEncoding [note "n2" "ab"; note "n1" "cd"; note "n0" "ef"] = 6 /\
   getTokenLimit limited = 50 /\
   buildMessages limited charEncoding deep None
   = {| result_messages := [{| content_of := CString "cd"; role := user |};
                            {| content_of := CString "ab"; role := user |}];
        result_tokenCount := 4 |} /\
   ~ In {| content_of := CString "ef"; role := user |}
        (result_messages (buildMessages limited charEncoding deep None))) /\
  (getSystemPrompt (settingsWith "" 50 0) marked = "SYSTEM PROMPT x" /\
   tokenLength charEncoding "SYSTEM PROMPT x" = 15 /\
   buildMessages (settingsWith "" 50 0) charEncoding marked None
   = {| result_messages := []; result_tokenCount := 0 |}).
Proof.
  cbv zeta. split; [split; [reflexivity|]|repeat split].
  split; [reflexivity|]. split; [reflexivity|].
  simpl. intros [H|[H|[]]]; discriminate.
Qed.




(* ================================================================= *)
(** ** Filtered notes and the system prompt *)

Lemma prompt_note_is_marked (n : CanvasNode) :
  isPromptNote n = true -> isEmptyNode n = false /\ isMarkedNode n = true.
Proof.
  unfold isPromptNote, isEmptyNode, isMarkedNode, nodeTextOf.
  destruct (readNodeContent n) as [text|]; [|discriminate].
  intros H. apply andb_true_iff in H as [_ H]. unfold isSystemPromptNode in *.
  assert (Hm : JS.startsWith (JS.trim (JS.trim text)) "SYSTEM PROMPT" = true).
  { apply (JSFacts.startsWith_trim "S" "YSTEM PROMP" "T"); [reflexivity..|exact H]. }
  split; [|exact Hm].
  destruct (JS.trim text); [discriminate|reflexivity].
Qed.

Lemma marked_is_not_image (n : CanvasNode) :
  isMarkedNode n = true -> isImageNode n = false.
Proof.
  unfold isMarkedNode, isImageNode, isSystemPromptNode. intros Hm.
  destruct (JS.truthyStr (nodeTextOf n)); [|reflexivity]. simpl.
  destruct (JS.startsWith (nodeTextOf n) "data:image") eqn:Hi; [|reflexivity].
  apply (JSFacts.startsWith_trim "d" "ata:imag" "e") in Hi; [|reflexivity..].
  pose proof (JSFacts.startsWith_first _ _ _ _ _ Hm Hi). discriminate.
Qed.

Lemma visit_filtered (settings : ChatStreamSettings) (encoding : Encoding)
    (n : CanvasNode) (d : Z) (st : BuildState) :
  isEmptyNode n || isMarkedNode n = true ->
  visit settings encoding n d st = (depthAllowed settings d, st).
Proof.
  intros H. rewrite VisitFacts.visit_cases.
  destruct (depthAllowed settings d); [|reflexivity]. simpl.
  destruct (isEmptyNode n); [reflexivity|]. simpl in H.
  rewrite (marked_is_not_image n H), H. reflexivity.
Qed.

Lemma walk_filtered (settings : ChatStreamSettings) (encoding : Encoding)
    (t : Ancestry) :
  forall (d : Z) (st : BuildState),
    allVisitedFiltered settings d t = true ->
    visitNodeAndAncestors (visit settings encoding) t d st = st.
Proof.
  induction t as [n parents IH] using WalkFacts.Ancestry_parents_ind.
  intros d st H. simpl in H |- *.
  destruct (depthAllowed settings d) eqn:Hd.
  - apply andb_true_iff in H as [Hn Hps].
    rewrite (visit_filtered settings encoding n d st Hn), Hd.
    revert Hps. induction IH as [|p ps Hp _ IHps]; intros Hps; simpl in *.
    + reflexivity.
    + apply andb_true_iff in Hps as [H1 H2].
      rewrite (Hp _ _ H1). apply IHps. exact H2.
  - rewrite VisitFacts.visit_blocked by exact Hd. reflexivity.
Qed.

(** C8.  When every note that the walk reaches is empty, white space only
    or marked as a system prompt, the walk leaves the state as it started
    (the system prompt's tokens are counted, no message is recorded), and
    [buildMessages] returns the empty list with count 0, with or without an
    action prompt. *)
Theorem filtered_build_is_empty
    (settings : ChatStreamSettings) (encoding : Encoding)
    (start : Ancestry) (actionPrompt : option string) :
  allVisitedFiltered settings 0 start = true ->
  walk settings encoding start
  = {| messages := [];
       tokenCount := promptTokens encoding (getSystemPrompt settings start);
       debugLog := [] |} /\
  buildMessages settings encoding start actionPrompt
  = {| result_messages := []; result_tokenCount := 0 |}.
Proof.
  intros H.
  assert (Hwalk : walk settings encoding start
                  = initialState encoding (getSystemPrompt settings start)).
  { unfold walk. apply walk_filtered. exact H. }
  split; [rewrite Hwalk; reflexivity|].
  unfold buildMessages. rewrite Hwalk. reflexivity.
Qed.

Lemma filtered_build_is_empty_witness :
  let settings := settingsWith "Be brief." 50 0 in
  let start := Anc (note "n2" "   ")
                   [Anc (note "n1" " SYSTEM PROMPT terse") [];
                    Anc {| id := "n0"; content := None; chat_role := None;
                           color := None; height := 60 |} []] in
  tokenCount (walk settings charEncoding start) = 20 /\
  buildMessages settings charEncoding start (Some "Summarize")
  = {| result_messages := []; result_tokenCount := 0 |}.
Proof.
  intros settings start.
  assert (H : allVisitedFiltered settings 0 start = true) by reflexivity.
  destruct (filtered_build_is_empty settings charEncoding start (Some "Summarize") H)
    as [Hwalk Hbuild].
  split; [rewrite Hwalk; reflexivity|exact Hbuild].
Defined.

Lemma prompt_on_chain (rest : list CanvasNode) :
  forall (n : CanvasNode) (d : Z) (found : option string),
    visitNodeAndAncestors promptVisitor (chain n rest) d found
    = match find isPromptNote (n :: rest) with
      | Some m => Some (contentText m)
      | None => found
      end.
Proof.
  induction rest as [|p rest IH]; intros n d found;
    simpl; unfold promptVisitor, isPromptNote, contentText, readNodeContent;
    destruct (content n) as [text|] eqn:Hc.
  - destruct (JS.truthyStr text && isSystemPromptNode text);
      rewrite ?Hc; reflexivity.
  - reflexivity.
  - destruct (JS.truthyStr text && isSystemPromptNode text);
      [rewrite Hc; reflexivity|].
    rewrite IH. reflexivity.
  - rewrite IH. reflexivity.
Qed.

Lemma visit_keeps_ordinary (settings : ChatStreamSettings) (encoding : Encoding)
    (n : CanvasNode) (d : Z) (st : BuildState) :
  Forall ordinary (messages st) ->
  Forall ordinary (messages (snd (visit settings encoding n d st))).
Proof.
  intros H. rewrite VisitFacts.visit_cases.
  assert (Hrole : roleOf n <> system).
  { unfold roleOf. destruct (chat_role n) as [r|]; [destruct (String.eqb r _)|];
      discriminate. }
  destruct (negb (depthAllowed settings d)); [exact H|].
  destruct (isEmptyNode n); [exact H|].
  destruct (isImageNode n).
  { simpl. constructor; [|exact H]. split; [discriminate|]. intros s Hs. discriminate. }
  destruct (isMarkedNode n) eqn:Hm; [exact H|].
  destruct (_ >? _); simpl; (constructor; [|exact H]); (split; [exact Hrole|]);
    intros s Hs; injection Hs as <-.
  - destruct (isSystemPromptNode _) eqn:E; [|reflexivity].
    unfold truncatedText, isSystemPromptNode in E.
    apply (JSFacts.startsWith_trim_slice "S" "YSTEM PROMP" "T") in E; [|reflexivity].
    unfold isMarkedNode, isSystemPromptNode in Hm.
    change (JS.startsWith (JS.trim (nodeTextOf n)) "SYSTEM PROMPT" = true) in E.
    congruence.
  - exact Hm.
Qed.

(** On a single-parent chain the resolved system prompt is the content of
    the first note, start note included, whose trimmed content starts with
    [SYSTEM PROMPT], or the configured default when there is none.  On any
    ancestry, a note marked so leaves the builder's state as it was, and no
    message returned by [buildMessages] other than the system message
    carries a text marked as a system prompt. *)
Lemma system_prompt_resolution
    (settings : ChatStreamSettings) (encoding : Encoding)
    (n : CanvasNode) (ancestors : list CanvasNode) (start : Ancestry) :
  getSystemPrompt settings (chain n ancestors)
  = match find isPromptNote (n :: ancestors) with
    | Some marked => contentText marked
    | None => systemPrompt settings
    end /\
  (forall (node : CanvasNode) (d : Z) (st : BuildState),
     isPromptNote node = true ->
     snd (visit settings encoding node d st) = st) /\
  (forall m : Message,
     In m (result_messages (buildMessages settings encoding start None)) ->
     role m <> system ->
     forall s : string, content_of m = CString s -> isSystemPromptNode s = false).
Proof.
  split; [|split].
  - unfold getSystemPrompt. rewrite prompt_on_chain.
    destruct (find isPromptNote (n :: ancestors)) as [marked|] eqn:F; [|reflexivity].
    apply find_some in F as [_ F].
    unfold isPromptNote, readNodeContent in F. unfold contentText.
    destruct (content marked) as [text|]; [|discriminate].
    apply andb_true_iff in F as [F _]. rewrite F. reflexivity.
  - intros node d st H. apply prompt_note_is_marked in H as [_ H].
    rewrite visit_filtered by (rewrite H; apply orb_true_r). reflexivity.
  - assert (Hall : Forall ordinary (messages (walk settings encoding start))).
    { unfold walk. apply WalkFacts.walk_invariant.
      - intros; apply visit_keeps_ordinary; assumption.
      - constructor. }
    intros m Hin Hrole. unfold buildMessages in Hin.
    destruct (messages (walk settings encoding start)) as [|m0 ms] eqn:E;
      [destruct Hin|].
    rewrite Forall_forall in Hall.
    destruct (JS.truthyStr (getSystemPrompt settings start)); simpl in Hin.
    + destruct Hin as [<-|Hin]; [exfalso; apply Hrole; reflexivity|].
      exact (proj2 (Hall m Hin)).
    + exact (proj2 (Hall m Hin)).
Qed.


(* ================================================================= *)
(** ** The completion client *)

Module ClientFacts.

Import Json Client Shapes.

Lemma getProp_truthy (v : JSON) (key : string) :
  truthy (Some v) = true -> getProp (Some v) key = Returned (member key v).
Proof. destruct v; simpl; try reflexivity; discriminate. Qed.

Lemma outputTexts_filter (items : list JSON) (texts : list string) :
  outputTexts items = Some texts -> filterOutputText items = Returned items.
Proof.
  revert texts; induction items as [|item rest IH]; intros texts H; [reflexivity|].
  simpl in H. destruct (outputTextOf item) as [text|] eqn:Hi; [|discriminate].
  destruct (outputTexts rest) as [ts|] eqn:Hr; [|discriminate].
  simpl. unfold outputTextOf in Hi.
  destruct item; try discriminate. simpl in *.
  destruct (lookupLast "type" members) as [[]|]; try discriminate.
  destruct (lookupLast "text" members) as [[]|]; try discriminate.
  rewrite (IH ts eq_refl). simpl.
  destruct (String.eqb s "output_text"); [reflexivity|discriminate].
Qed.

Lemma outputTexts_map (items : list JSON) (texts : list string) :
  outputTexts items = Some texts ->
  mapText items = Returned (map (fun text => Some (JStr text)) texts).
Proof.
  revert texts; induction items as [|item rest IH]; intros texts H.
  - injection H as <-. reflexivity.
  - simpl in H. destruct (outputTextOf item) as [text|] eqn:Hi; [|discriminate].
    destruct (outputTexts rest) as [ts|] eqn:Hr; [|discriminate].
    injection H as <-. simpl. unfold outputTextOf in Hi.
    destruct item; try discriminate. simpl in *.
    destruct (lookupLast "type" members) as [[]|]; try discriminate.
    destruct (lookupLast "text" members) as [[]|]; try discriminate.
    rewrite (IH ts eq_refl). simpl.
    destruct (String.eqb s "output_text"); [|discriminate].
    injection Hi as <-. reflexivity.
Qed.

Lemma extractText_texts (items : list JSON) (texts : list string) :
  outputTexts items = Some texts -> extractText items = Returned (JS.join texts).
Proof.
  intros H. unfold extractText.
  rewrite (outputTexts_filter items texts H). simpl.
  rewrite (outputTexts_map items texts H). simpl.
  rewrite map_map. simpl. rewrite map_id. reflexivity.
Qed.

Lemma filterOutputText_null (items : list JSON) :
  In JNull items -> filterOutputText items = Threw TypeError.
Proof.
  induction items as [|item rest IH]; intros Hin; [destruct Hin|].
  simpl. destruct Hin as [->|Hin]; [reflexivity|].
  rewrite (IH Hin). destruct item; reflexivity.
Qed.

(** When [res.content] is not an array, what is left of [parseResponse] is
    decided by [firstMessage && firstMessage.content]. *)
Lemma parseResponse_without_content (res : JSON) :
  hasContentArray res = false ->
  parseResponse res =
  if truthy (firstMessageContent res) then
    match isArray (firstMessageContent res) with
    | Some items =>
        bind (extractText items) (fun textContent => Returned (nonEmpty textContent))
    | None => Threw TypeError
    end
  else Returned (member "output_text" res).
Proof.
  intros Hc. unfold parseResponse, outputTextHelper.
  destruct res as [| b | n | s | items | members]; try reflexivity.
  - destruct b; reflexivity.
  - simpl. destruct (n =? 0); reflexivity.
  - destruct s; reflexivity.
  - simpl. unfold hasContentArray in Hc. simpl in Hc.
    unfold firstMessageContent, firstMessage. simpl.
    assert (Hrest :
      bind (Returned (lookupLast "output" members))
        (fun output =>
           if truthy output then
             let firstMessage :=
               match isArray output with
               | Some (first :: _) => Some first
               | _ => None
               end in
             if truthy firstMessage then
               bind (getProp firstMessage "content") (fun messageContent =>
               if truthy messageContent then
                 match isArray messageContent with
                 | Some items =>
                     bind (extractText items) (fun textContent =>
                     Returned (if JS.truthyStr textContent
                               then Some (JStr textContent) else None))
                 | None => Threw TypeError
                 end
               else Returned (lookupLast "output_text" members))
             else Returned (lookupLast "output_text" members)
           else Returned (lookupLast "output_text" members))
      = (if truthy
              match
                match lookupLast "output" members with
                | Some (JArr (first :: _)) => Some first
                | _ => None
                end
              with
              | Some first => if truthy (Some first) then member "content" first else None
              | None => None
              end
         then
           match
             isArray
               match
                 match lookupLast "output" members with
                 | Some (JArr (first :: _)) => Some first
                 | _ => None
                 end
               with
               | Some first =>
                   if truthy (Some first) then member "content" first else None
               | None => None
               end
           with
           | Some items =>
               bind (extractText items)
                    (fun textContent => Returned (nonEmpty textContent))
           | None => Threw TypeError
           end
         else Returned (lookupLast "output_text" members))).
    { cbn [bind].
      destruct (lookupLast "output" members) as [out|]; [|reflexivity].
      destruct out as [| b1 | n1 | s1 | [|first rest] | ms1];
        try reflexivity.
      + destruct b1; reflexivity.
      + cbn [truthy]. destruct (negb (n1 =? 0)); reflexivity.
      + destruct s1; reflexivity.
      + change (truthy (Some (JArr (first :: rest)))) with true.
        cbn [isArray]. cbv beta iota zeta.
        destruct (truthy (Some first)) eqn:Hf; [|reflexivity].
        rewrite (getProp_truthy first "content" Hf). cbn [bind].
        destruct (truthy (member "content" first)); reflexivity. }
    destruct (lookupLast "content" members) as [[]|]; try discriminate;
      exact Hrest.
Qed.

End ClientFacts.

Import Json Client Shapes.

(** The paths of [parseResponse] on a parsed body [res]:
    - an inline content array of output-text items yields their
      concatenated text;
    - without an array [content], a first output message with such a content
      array yields the concatenated text, or [undefined] when that text is
      empty;
    - without an array [content] and without a truthy content in the first
      output message, the helper text in [output_text] is the result, and
      the result is [undefined] when that field is absent;
    - a [null] item in the inline content array, or a first output message
      whose content is truthy but not an array, ends in a [TypeError]. *)
Lemma response_shapes (res : JSON) :
  (forall texts, inlineContent res = Some texts ->
     parseResponse res = Returned (Some (JStr (JS.join texts)))) /\
  (forall texts, hasContentArray res = false -> nestedContent res = Some texts ->
     parseResponse res = Returned (nonEmpty (JS.join texts))) /\
  (hasContentArray res = false -> truthy (firstMessageContent res) = false ->
     (forall text, helperText res = Some text ->
                   parseResponse res = Returned (Some (JStr text))) /\
     (member "output_text" res = None -> parseResponse res = Returned None)) /\
  (forall items, member "content" res = Some (JArr items) -> In JNull items ->
     parseResponse res = Threw TypeError) /\
  (hasContentArray res = false -> truthy (firstMessageContent res) = true ->
     isArray (firstMessageContent res) = None ->
     parseResponse res = Threw TypeError).
Proof.
  split; [|split; [|split; [|split]]].
  - intros texts H. unfold inlineContent in H.
    destruct res as [| | | | |members]; try discriminate. simpl in H.
    unfold parseResponse. simpl.
    destruct (lookupLast "content" members) as [[]|]; try discriminate. simpl.
    rewrite (ClientFacts.extractText_texts _ _ H). reflexivity.
  - intros texts Hc H. rewrite (ClientFacts.parseResponse_without_content res Hc).
    unfold nestedContent in H. unfold firstMessageContent.
    destruct (firstMessage res) as [[| | | | |members]|]; try discriminate.
    simpl.
    destruct (lookupLast "content" members) as [[]|]; try discriminate. simpl.
    rewrite (ClientFacts.extractText_texts _ _ H). reflexivity.
  - intros Hc Hf. rewrite (ClientFacts.parseResponse_without_content res Hc), Hf.
    split.
    + intros text H. unfold helperText in H.
      destruct (member "output_text" res) as [[]|]; try discriminate.
      injection H as <-. reflexivity.
    + intros ->. reflexivity.
  - intros items Hm Hin. destruct res as [| | | | |members]; try discriminate.
    simpl in Hm. unfold parseResponse. simpl. rewrite Hm. simpl.
    unfold extractText. rewrite (ClientFacts.filterOutputText_null items Hin).
    reflexivity.
  - intros Hc Hf Ha.
    rewrite (ClientFacts.parseResponse_without_content res Hc), Hf, Ha.
    reflexivity.
Qed.

(** C5 at the failing input.  The body [{output: [{content: "hi"}]}]
    matches none of the three reply shapes.  The nested path only tests that
    the first message's content is truthy before it calls [filter] on it,
    so a [TypeError] is thrown and the client throws it to its caller; the
    result is not [undefined].  The inline path tests [Array.isArray] first:
    the same text in [res.content] gives [undefined]. *)
Theorem unmatched_body_throws :
  let res := JObj [("output", JArr [JObj [("content", JStr "hi")]])] in
  inlineContent res = None /\
  nestedContent res = None /\
  helperText res = None /\
  parseResponse res = Threw TypeError /\
  parseResponse res <> Returned None /\
  getChatGPTCompletion (fun _ => Some res) (Resolved "body") = Threw TypeError /\
  parseResponse (JObj [("content", JStr "hi")]) = Returned None.
Proof.
  cbv zeta. repeat split; discriminate.
Qed.

(** C10.  The request body's [input] has one entry per message, in order and
    with the message's role; the entry of a message whose content is not a
    string carries [JSON.stringify] of that content.  For the image message
    that the builder emits this is the JSON text of a one-element array
    holding the [image_url] object. *)
Theorem input_entries_are_text
    (model : string) (input : list Message) (max_tokens : option Z)
    (i : nat) (msg : Message) :
  nth_error input i = Some msg ->
  List.length (body_input (requestBody model input max_tokens)) = List.length input /\
  (forall parts, content_of msg = CArray parts ->
     nth_error (body_input (requestBody model input max_tokens)) i
     = Some {| entry_role := role msg;
               entry_content := stringify (JArr parts) |}) /\
  (forall text, content_of msg = CString text ->
     nth_error (body_input (requestBody model input max_tokens)) i
     = Some {| entry_role := role msg; entry_content := text |}) /\
  (forall url, msg = Builder.imageMessage url ->
     nth_error (body_input (requestBody model input max_tokens)) i
     = Some {| entry_role := user;
               entry_content :=
                 ("[{" ++ quote "type" ++ ":" ++ quote "image_url" ++ ","
                  ++ quote "image_url" ++ ":{" ++ quote "url" ++ ":" ++ quote url
                  ++ "}}]")%string |}).
Proof.
  intros H. unfold requestBody, formattedInput. cbn [body_input].
  split; [apply length_map|].
  rewrite nth_error_map, H. cbn [option_map]. unfold formatMessage.
  split; [|split].
  - intros parts ->. reflexivity.
  - intros text ->. reflexivity.
  - intros url ->. cbn [content_of role Builder.imageMessage].
    do 2 f_equal. cbn [stringify map JS.joinWith fst snd].
    rewrite !JSFacts.append_assoc. reflexivity.
Qed.

Lemma input_entries_are_text_witness :
  let url := "data:image/png;base64,AAAA" in
  let input := [{| content_of := CString "Be brief."; role := system |};
                Builder.imageMessage url;
                {| content_of := CString "What is this?"; role := user |}] in
  nth_error (body_input (requestBody "o3-mini" input (Some 500))) 1
  = Some {| entry_role := user;
            entry_content :=
              ("[{" ++ quote "type" ++ ":" ++ quote "image_url" ++ ","
               ++ quote "image_url" ++ ":{" ++ quote "url" ++ ":" ++ quote url
               ++ "}}]")%string |} /\
  body_model (requestBody "o3-mini" input (Some 500)) = "gpt-4o-mini".
Proof.
  intros url input. split; [|reflexivity].
  apply (input_entries_are_text "o3-mini" input (Some 500) 1
           (Builder.imageMessage url)); reflexivity.
Defined.

(* ================================================================= *)
(** ** The reply integrator *)

Import Integrator.

Lemma findNode_removeNode (canvas : Canvas) (n : CanvasNode) :
  findNode (removeNode canvas n) (id n) = None.
Proof.
  unfold findNode, removeNode. cbn [nodes].
  induction (nodes canvas) as [|m ms IH]; [reflexivity|]. simpl.
  destruct (String.eqb (id m) (id n)) eqn:E; simpl; [exact IH|].
  rewrite E. exact IH.
Qed.

(** When the completion resolves with [undefined] or rejects, the
    placeholder is removed from the canvas and one notice reports it. *)
Lemma failed_reply_removes_placeholder
    (calcHeight : string -> Z -> Z) (newEdgeId label : string)
    (node created : CanvasNode) (generated : Outcome (option string))
    (canvas : Canvas) :
  generated = Returned None \/ (exists error, generated = Threw error) ->
  let (after, notices) :=
    integrate calcHeight newEdgeId label node created generated canvas in
  findNode after (id created) = None /\
  selection after = selection canvas /\
  List.length notices = 1%nat.
Proof.
  intros [->|[error ->]]; simpl;
    (split; [apply findNode_removeNode|split; reflexivity]).
Qed.

(** C9, as amended.  After a reply has been integrated, the reply note is
    selected when the selection is the source note alone, and also when the
    selection is not a single note (nothing, or several notes, selected);
    when one other note is selected, the selection is left as it is. *)
Theorem selection_after_reply
    (calcHeight : string -> Z -> Z) (newEdgeId label : string)
    (node created : CanvasNode) (text : string) (canvas : Canvas) :
  let after :=
    fst (integrate calcHeight newEdgeId label node created
                   (Returned (Some text)) canvas) in
  (selection canvas = [id node] -> selection after = [id created]) /\
  (List.length (selection canvas) <> 1%nat -> selection after = [id created]) /\
  (forall other : string,
     selection canvas = [other] -> other <> id node ->
     selection after = selection canvas).
Proof.
  destruct canvas as [ns es sel]. cbv zeta. unfold integrate.
  cbn [selection addEdge moveAndResize setText updateNode].
  split; [|split].
  - intros ->. rewrite String.eqb_refl. reflexivity.
  - intros H. destruct sel as [|a [|b l]]; try reflexivity.
    exfalso. apply H. reflexivity.
  - intros other -> Hne. apply String.eqb_neq in Hne. rewrite Hne. reflexivity.
Qed.

Lemma selection_after_reply_witness :
  let canvas := {| nodes := [note "src" "hello"; note "other" "aside";
                             reply "new" "Calling AI (gpt-4o)..."];
                   edges := [];
                   selection := ["other"] |} in
  selection (fst (integrate (fun _ h => h) "e1" "Generate"
                            (note "src" "hello")
                            (reply "new" "Calling AI (gpt-4o)...")
                            (Returned (Some "Hi!")) canvas))
  = ["other"].
Proof.
  intros canvas.
  apply (proj2 (proj2 (selection_after_reply (fun _ h => h) "e1" "Generate"
                         (note "src" "hello")
                         (reply "new" "Calling AI (gpt-4o)...") "Hi!" canvas))
           "other"); [reflexivity|discriminate].
Defined.

(** C9, as stated, fails: when nothing is selected as the reply arrives,
    the selection does not point at the source note, and the reply note is
    selected all the same. *)
Lemma reply_selected_when_nothing_is :
  let canvas := {| nodes := [note "src" "hello";
                             reply "new" "Calling AI (gpt-4o)..."];
                   edges := [];
                   selection := [] |} in
  let after := fst (integrate (fun _ h => h) "e1" "Generate"
                              (note "src" "hello")
                              (reply "new" "Calling AI (gpt-4o)...")
                              (Returned (Some "Hi!")) canvas) in
  selection canvas <> ["src"] /\
  selection after = ["new"] /\
  selection after <> selection canvas.
Proof.
  cbv zeta. repeat split; discriminate.
Qed.

(** C6 at the failing input.  The body [{content: []}] makes the client
    return the empty string; [generateNote] then keeps the placeholder,
    sets its text to the empty string, links it to the source note and
    selects it, and shows no notice of a failure. *)
Theorem empty_text_reply_keeps_placeholder :
  let settings := settingsWith "Be brief." 50 0 in
  let canvas := {| nodes := [note "src" "hello"]; edges := []; selection := ["src"] |} in
  let completion := parseResponse (JObj [("content", JArr [])]) in
  completion = Returned (Some (JStr "")) /\
  replyOf completion = Returned (Some EmptyString) /\
  generateNote settings charEncoding (fun _ n => Anc n []) (fun _ h => h)
               "new" "e1" "Generate" None None
               (fun c _ => (c, replyOf completion)) canvas
  = ({| nodes := [note "src" "hello"; reply "new" ""];
        edges := [{| edge_id := "e1"; edge_from := "src"; edge_to := "new";
                     edge_label := "Generate" |}];
        selection := ["new"] |},
     ["Sending 2 notes with 14 tokens to GPT"]).
Proof.
  cbv zeta. repeat split.
Qed.

(* ================================================================= *)
(** ** Further properties of the builder *)

Module TrimFacts.

Import JS.

Lemma trimStart_head (s : string) :
  match trimStart s with
  | EmptyString => True
  | String c _ => isWhiteSpace c = false
  end.
Proof.
  induction s as [|c s IH]; simpl; [exact I|].
  destruct (isWhiteSpace c) eqn:E; [exact IH|exact E].
Qed.

Lemma trimEnd_idempotent (u : string) : trimEnd (trimEnd u) = trimEnd u.
Proof.
  induction u as [|c u IH]; simpl; [reflexivity|].
  destruct (trimEnd u) as [|d t] eqn:E.
  - destruct (isWhiteSpace c) eqn:W; simpl; [reflexivity|]. rewrite W. reflexivity.
  - change (trimEnd (String c (String d t))) with
      (match trimEnd (String d t) with
       | EmptyString => if isWhiteSpace c then EmptyString else String c EmptyString
       | t0 => String c t0
       end).
    rewrite IH. reflexivity.
Qed.

Lemma trimStart_trimEnd (u : string) :
  match u with
  | EmptyString => True
  | String c _ => isWhiteSpace c = false
  end ->
  trimStart (trimEnd u) = trimEnd u.
Proof.
  destruct u as [|c u]; simpl; [reflexivity|]. intros Hc.
  destruct (trimEnd u); [rewrite Hc|]; simpl; rewrite Hc; reflexivity.
Qed.

Lemma trim_idempotent (s : string) : trim (trim s) = trim s.
Proof.
  unfold trim. rewrite (trimStart_trimEnd (trimStart s) (trimStart_head s)).
  apply trimEnd_idempotent.
Qed.

End TrimFacts.

(** X1.  The input limit is always positive: a positive [maxInputTokens] is
    the limit, and 0 or a negative value gives the default of 8192. *)
Theorem token_limit_default (settings : ChatStreamSettings) :
  0 < getTokenLimit settings /\
  (0 < maxInputTokens settings -> getTokenLimit settings = maxInputTokens settings) /\
  (maxInputTokens settings <= 0 -> getTokenLimit settings = 8192).
Proof.
  unfold getTokenLimit. rewrite Z.gtb_ltb.
  destruct (Z.eqb_spec (maxInputTokens settings) 0);
    destruct (Z.ltb_spec 0 (maxInputTokens settings)); simpl;
    repeat split; intros; lia.
Qed.

Lemma token_limit_default_witness :
  getTokenLimit (settingsWith "" 4096 0) = 4096 /\
  getTokenLimit (settingsWith "" (-5) 0) = 8192.
Proof.
  split.
  - apply (proj1 (proj2 (token_limit_default (settingsWith "" 4096 0)))).
    simpl. lia.
  - apply (proj2 (proj2 (token_limit_default (settingsWith "" (-5) 0)))).
    simpl. lia.
Defined.

(** X2.  The resolver tests the raw content of a note for the marker and
    the builder tests the trimmed text: both select the same notes, and a
    note selected so is neither empty nor an image reference for the
    builder. *)
Theorem marker_tests_agree (n : CanvasNode) :
  isPromptNote n = isMarkedNode n /\
  (isMarkedNode n = true -> isEmptyNode n = false /\ isImageNode n = false).
Proof.
  assert (Hsame : isPromptNote n = isMarkedNode n).
  { unfold isPromptNote, isMarkedNode, nodeTextOf, isSystemPromptNode.
    destruct (readNodeContent n) as [text|]; [|reflexivity].
    rewrite TrimFacts.trim_idempotent.
    destruct text as [|c text]; [reflexivity|reflexivity]. }
  split; [exact Hsame|].
  intros Hm. split; [|apply marked_is_not_image; exact Hm].
  rewrite <- Hsame in Hm. apply prompt_note_is_marked in Hm. apply Hm.
Qed.

Lemma marker_tests_agree_witness :
  isPromptNote (note "n1" "   SYSTEM PROMPT terse  ") = true /\
  isEmptyNode (note "n1" "   SYSTEM PROMPT terse  ") = false /\
  isImageNode (note "n1" "   SYSTEM PROMPT terse  ") = false.
Proof.
  destruct (marker_tests_agree (note "n1" "   SYSTEM PROMPT terse  ")) as [Hsame Hskip].
  split; [rewrite Hsame; reflexivity|].
  apply Hskip. reflexivity.
Defined.

(** X3.  An action prompt that is not empty is appended as the last user
    message and its tokens are added to the count, provided the walk
    produced a message; when it produced none the action prompt is dropped
    and the result is empty.  An empty action prompt is the same as none. *)
Theorem action_prompt_appended
    (settings : ChatStreamSettings) (encoding : Encoding)
    (start : Ancestry) (action : string) :
  let plain := buildMessages settings encoding start None in
  let acted := buildMessages settings encoding start (Some action) in
  (JS.truthyStr action = false -> acted = plain) /\
  (result_messages plain = [] ->
   acted = {| result_messages := []; result_tokenCount := 0 |}) /\
  (JS.truthyStr action = true -> result_messages plain <> [] ->
   result_messages acted
   = result_messages plain ++ [{| content_of := CString action; role := user |}] /\
   result_tokenCount acted
   = result_tokenCount plain + tokenLength encoding action).
Proof.
  cbv zeta. unfold buildMessages.
  destruct (messages (walk settings encoding start)) as [|m ms] eqn:E.
  - split; [intros _; destruct (JS.truthyStr action); reflexivity|].
    split; [intros _; destruct (JS.truthyStr action); reflexivity|].
    intros _ Hne. exfalso. apply Hne. reflexivity.
  - split; [intros ->; reflexivity|]. split.
    + destruct (JS.truthyStr (getSystemPrompt settings start)); discriminate.
    + intros -> _. split; reflexivity.
Qed.

Lemma action_prompt_appended_witness :
  let settings := settingsWith "" 50 0 in
  let start := chain (note "n1" "hello") [] in
  buildMessages settings charEncoding start (Some "Summarize")
  = {| result_messages := [{| content_of := CString "hello"; role := user |};
                           {| content_of := CString "Summarize"; role := user |}];
       result_tokenCount := 5 + 9 |} /\
  buildMessages settings charEncoding (chain (note "n0" "  ") []) (Some "Summarize")
  = {| result_messages := []; result_tokenCount := 0 |}.
Proof.
  intros settings start. split.
  - destruct (proj2 (proj2 (action_prompt_appended settings charEncoding start
                              "Summarize")) eq_refl) as [Hm Hc];
      [discriminate|].
    destruct (buildMessages settings charEncoding start (Some "Summarize"))
      as [ms tc]. simpl in Hm, Hc. rewrite Hm, Hc. reflexivity.
  - apply (proj1 (proj2 (action_prompt_appended settings charEncoding
                           (chain (note "n0" "  ") []) "Summarize"))).
    reflexivity.
Defined.

Lemma walk_messages_ordinary (settings : ChatStreamSettings) (encoding : Encoding)
    (start : Ancestry) :
  Forall ordinary (messages (walk settings encoding start)).
Proof.
  unfold walk. apply WalkFacts.walk_invariant.
  - intros; apply visit_keeps_ordinary; assumption.
  - constructor.
Qed.

(** X4.  A system message occurs in the result of [buildMessages] only as
    its first message, only when the resolved system prompt is not empty,
    and its text is that prompt. *)
Theorem system_message_is_first
    (settings : ChatStreamSettings) (encoding : Encoding)
    (start : Ancestry) (actionPrompt : option string) (i : nat) (m : Message) :
  nth_error (result_messages (buildMessages settings encoding start actionPrompt)) i
  = Some m ->
  role m = system ->
  i = 0%nat /\
  content_of m = CString (getSystemPrompt settings start) /\
  JS.truthyStr (getSystemPrompt settings start) = true.
Proof.
  intros Hn Hrole.
  pose proof (walk_messages_ordinary settings encoding start) as Hall.
  rewrite Forall_forall in Hall.
  assert (Hord : forall k, nth_error
            (messages (walk settings encoding start)
             ++ match actionPrompt with
                | Some action =>
                    if JS.truthyStr action
                    then [{| content_of := CString action; role := user |}] else []
                | None => []
                end) k = Some m -> False).
  { intros k Hk. apply nth_error_In in Hk. apply in_app_or in Hk as [Hk|Hk].
    - apply (proj1 (Hall m Hk)). exact Hrole.
    - destruct actionPrompt as [action|]; [|destruct Hk].
      destruct (JS.truthyStr action); [|destruct Hk].
      destruct Hk as [<-|[]]. discriminate. }
  unfold buildMessages in Hn.
  destruct (messages (walk settings encoding start)) as [|m0 ms] eqn:E.
  { destruct i; discriminate. }
  destruct (JS.truthyStr (getSystemPrompt settings start)) eqn:Hp.
  - destruct i as [|i].
    + destruct actionPrompt as [action|]; [destruct (JS.truthyStr action)|];
        simpl in Hn; injection Hn as <-; repeat split.
    + exfalso. apply (Hord i).
      destruct actionPrompt as [action|]; [destruct (JS.truthyStr action)|];
        simpl in Hn |- *; rewrite ?app_nil_r; exact Hn.
  - exfalso. apply (Hord i).
    destruct actionPrompt as [action|]; [destruct (JS.truthyStr action)|];
      simpl in Hn |- *; rewrite ?app_nil_r; exact Hn.
Qed.

Lemma system_message_is_first_witness :
  let settings := settingsWith "Be brief." 50 0 in
  let start := chain (note "n1" "hello") [note "n0" "hi"] in
  content_of {| content_of := CString "Be brief."; role := system |}
  = CString (getSystemPrompt settings start).
Proof.
  intros settings start.
  apply (system_message_is_first settings charEncoding start (Some "Go") 0
           {| content_of := CString "Be brief."; role := system |});
    reflexivity.
Defined.

(** X5.  With a negative [maxDepth] the depth guard rejects the start note
    itself: every build returns the empty result, whatever the notes and the
    action prompt are. *)
Theorem negative_depth_sends_nothing
    (settings : ChatStreamSettings) (encoding : Encoding)
    (start : Ancestry) (actionPrompt : option string) :
  maxDepth settings < 0 ->
  buildMessages settings encoding start actionPrompt
  = {| result_messages := []; result_tokenCount := 0 |}.
Proof.
  intros Hneg.
  assert (Hd : depthAllowed settings 0 = false).
  { unfold depthAllowed.
    destruct (Z.eqb_spec (maxDepth settings) 0); [lia|].
    rewrite Z.gtb_ltb. destruct (Z.ltb_spec (maxDepth settings) 0); [reflexivity|lia]. }
  assert (Hall : allVisitedFiltered settings 0 start = true).
  { destruct start as [n parents]. simpl. rewrite Hd. reflexivity. }
  unfold buildMessages, walk.
  rewrite (walk_filtered settings encoding start 0 _ Hall). reflexivity.
Qed.

Lemma negative_depth_sends_nothing_witness :
  buildMessages (settingsWith "Be brief." 50 (-1)) charEncoding
                (chain (note "n1" "hello") [note "n0" "hi"]) (Some "Summarize")
  = {| result_messages := []; result_tokenCount := 0 |}.
Proof.
  apply negative_depth_sends_nothing. simpl. lia.
Defined.





(** X7.  One call of [visit] never lowers the token count and raises it by
    at most the token count of the note's trimmed text; it leaves the
    messages as they are or puts one message in front, which is an image
    message or a text message whose text is the trimmed text of the note or a
    prefix of it; and the truncation log keeps its lines. *)
Theorem visit_step_bounds
    (settings : ChatStreamSettings) (encoding : Encoding)
    (node : CanvasNode) (depth : Z) (st : BuildState) :
  let after := snd (visit settings encoding node depth st) in
  tokenCount st <= tokenCount after /\
  tokenCount after <= tokenCount st + tokenLength encoding (nodeTextOf node) /\
  (messages after = messages st \/
   exists m, messages after = m :: messages st /\
             More.cutOf (nodeTextOf node) m /\ role m <> system) /\
  (exists lines, debugLog after = debugLog st ++ lines /\ (List.length lines <= 1)%nat).
Proof.
  cbv zeta. rewrite VisitFacts.visit_cases.
  pose proof (ChainFacts.tokenLength_nonneg encoding (nodeTextOf node)) as Hpos.
  assert (Hrole : roleOf node <> system).
  { unfold roleOf. destruct (chat_role node) as [r|]; [destruct (String.eqb r _)|];
      discriminate. }
  assert (Hsame : forall s : BuildState,
            tokenCount st <= tokenCount st /\
            tokenCount st <= tokenCount st + tokenLength encoding (nodeTextOf node) /\
            (messages st = messages st \/
             exists m, messages st = m :: messages st /\
                       More.cutOf (nodeTextOf node) m /\ role m <> system) /\
            (exists lines, debugLog st = debugLog st ++ lines
                           /\ (List.length lines <= 1)%nat)).
  { intros _. repeat split; try lia; [left; reflexivity|].
    exists []. rewrite app_nil_r. split; [reflexivity|simpl; lia]. }
  destruct (negb (depthAllowed settings depth)); [apply (Hsame st)|].
  destruct (isEmptyNode node); [apply (Hsame st)|].
  destruct (isImageNode node).
  { simpl. repeat split; try lia.
    - right. eexists. split; [reflexivity|]. split; [exact I|discriminate].
    - exists []. rewrite app_nil_r. split; [reflexivity|simpl; lia]. }
  destruct (isMarkedNode node); [apply (Hsame st)|].
  destruct (_ >? _); simpl.
  - pose proof (JSFacts.slice0_length (encode encoding (nodeTextOf node))
                  (getTokenLimit settings - tokenCount st - 1)) as (_ & _ & Hk).
    unfold tokenLength, keptTokens. repeat split; try lia.
    + right. eexists. split; [reflexivity|]. split; [|exact Hrole].
      unfold More.cutOf, truncatedMessage, truncatedText, JS.strSlice0. simpl.
      apply JSFacts.prefix_substring.
    + eexists. split; [reflexivity|]. simpl. lia.
  - repeat split; try lia.
    + right. eexists. split; [reflexivity|]. split; [|exact Hrole].
      unfold More.cutOf, textMessage. simpl. apply JSFacts.prefix_refl.
    + exists []. rewrite app_nil_r. split; [reflexivity|simpl; lia].
Qed.

(** X8.  When the running count equals the input limit, the slice bound is
    -1: a text note of [k] tokens, [k >= 1], keeps its first [k - 1] tokens,
    the walk stops, and the count becomes [limit + k - 1]. *)
Theorem truncation_at_the_limit
    (settings : ChatStreamSettings) (encoding : Encoding)
    (node : CanvasNode) (depth : Z) (st : BuildState) :
  depthAllowed settings depth = true ->
  isTextNode node = true ->
  tokenCount st = getTokenLimit settings ->
  0 < tokenLength encoding (nodeTextOf node) ->
  let tokens := encode encoding (nodeTextOf node) in
  fst (visit settings encoding node depth st) = false /\
  keptTokens settings encoding (tokenCount st) (nodeTextOf node)
  = firstn (List.length tokens - 1) tokens /\
  tokenCount (snd (visit settings encoding node depth st))
  = getTokenLimit settings + tokenLength encoding (nodeTextOf node) - 1.
Proof.
  intros Hd Ht Heq Hpos tokens.
  rewrite VisitFacts.visit_text_overflow by (assumption || lia).
  assert (Hkept : keptTokens settings encoding (tokenCount st) (nodeTextOf node)
                  = firstn (List.length tokens - 1) tokens).
  { unfold keptTokens, JS.slice0. fold tokens.
    replace (getTokenLimit settings - tokenCount st - 1) with (-1) by lia.
    unfold tokenLength in Hpos. fold tokens in Hpos.
    change (-1 <? 0) with true. cbv iota. f_equal. lia. }
  simpl. split; [reflexivity|]. split; [exact Hkept|].
  rewrite Hkept, length_firstn. unfold tokenLength in *. fold tokens in Hpos |- *.
  lia.
Qed.

Lemma truncation_at_the_limit_witness :
  tokenCount (snd (visit (settingsWith "" 5 0) charEncoding (note "n2" "xyz") 1
                         (emptyState 5)))
  = 5 + 3 - 1.
Proof.
  apply (truncation_at_the_limit (settingsWith "" 5 0) charEncoding
           (note "n2" "xyz") 1 (emptyState 5)); reflexivity.
Defined.

Lemma visit_keeps_count (settings : ChatStreamSettings) (encoding : Encoding)
    (base : Z) (n : CanvasNode) (d : Z) (st : BuildState) :
  (debugLog st = [] ->
   tokenCount st = base + messageTokens encoding (messages st)) ->
  debugLog (snd (visit settings encoding n d st)) = [] ->
  tokenCount (snd (visit settings encoding n d st))
  = base + messageTokens encoding (messages (snd (visit settings encoding n d st))).
Proof.
  rewrite VisitFacts.visit_cases. intros Hinv.
  destruct (negb (depthAllowed settings d)); [exact Hinv|].
  destruct (isEmptyNode n); [exact Hinv|].
  destruct (isImageNode n); [simpl; exact Hinv|].
  destruct (isMarkedNode n); [exact Hinv|].
  destruct (_ >? _); simpl.
  - intros Hlog. destruct (debugLog st); discriminate.
  - intros Hlog. rewrite (Hinv Hlog). lia.
Qed.

(** X9.  On any ancestry, when the walk truncated nothing, the token count
    after the walk is the system prompt's cost plus the token lengths of the
    text messages collected; image messages add nothing. *)
Theorem count_matches_messages
    (settings : ChatStreamSettings) (encoding : Encoding) (start : Ancestry) :
  let after := walk settings encoding start in
  debugLog after = [] ->
  tokenCount after
  = promptTokens encoding (getSystemPrompt settings start)
    + messageTokens encoding (messages after).
Proof.
  cbv zeta. unfold walk.
  apply (WalkFacts.walk_invariant (visit settings encoding)
           (fun st => debugLog st = [] ->
                      tokenCount st
                      = promptTokens encoding (getSystemPrompt settings start)
                        + messageTokens encoding (messages st))).
  - intros n d s Hs. apply visit_keeps_count. exact Hs.
  - intros _. simpl. unfold promptTokens. lia.
Qed.

Lemma count_matches_messages_witness :
  let after := walk (settingsWith "Be brief." 50 0) charEncoding
                    (Anc (note "q" "What next?")
                         [Anc (note "a" "one") [];
                          Anc (note "b" "data:image/png;base64,AAAA") []]) in
  tokenCount after = 9 + messageTokens charEncoding (messages after).
Proof.
  intros after.
  apply (count_matches_messages (settingsWith "Be brief." 50 0) charEncoding).
  reflexivity.
Defined.

Lemma walkChain_log (settings : ChatStreamSettings) (encoding : Encoding)
    (l : list CanvasNode) :
  forall (d : Z) (st : BuildState),
    exists lines,
      debugLog (walkChain settings encoding d l st) = debugLog st ++ lines /\
      (List.length lines <= 1)%nat.
Proof.
  induction l as [|n l IH]; intros d st; simpl.
  - exists []. rewrite app_nil_r. split; [reflexivity|simpl; lia].
  - rewrite VisitFacts.visit_cases.
    destruct (negb (depthAllowed settings d)).
    { exists []. rewrite app_nil_r. split; [reflexivity|simpl; lia]. }
    assert (Hnext : forall s : BuildState,
              debugLog s = debugLog st ->
              exists lines,
                debugLog (walkChain settings encoding (d + 1) l s)
                = debugLog st ++ lines /\ (List.length lines <= 1)%nat).
    { intros s Hs. destruct (IH (d + 1) s) as (lines & H & Hl).
      exists lines. rewrite <- Hs. split; assumption. }
    destruct (isEmptyNode n); [apply Hnext; reflexivity|].
    destruct (isImageNode n); [apply Hnext; reflexivity|].
    destruct (isMarkedNode n); [apply Hnext; reflexivity|].
    destruct (_ >? _); [|apply Hnext; reflexivity].
    eexists. split; [reflexivity|simpl; lia].
Qed.

(** X10.  On a single-parent chain at most one note is truncated in a
    build, whatever the settings and the notes are. *)
Theorem at_most_one_truncation
    (settings : ChatStreamSettings) (encoding : Encoding)
    (n : CanvasNode) (ancestors : list CanvasNode) :
  (List.length (debugLog (walk settings encoding (chain n ancestors))) <= 1)%nat.
Proof.
  rewrite walk_on_chain.
  match goal with
  | |- (List.length (debugLog (walkChain _ _ _ ?l ?st)) <= 1)%nat =>
      destruct (walkChain_log settings encoding l 0 st) as (lines & -> & Hl)
  end.
  simpl. exact Hl.
Qed.

(* ================================================================= *)
(** ** The exported helpers and the tokenizer lookup *)

Module StringFacts.

Lemma length_append (a b : string) :
  String.length (a ++ b)%string = (String.length a + String.length b)%nat.
Proof. induction a as [|c a IH]; simpl; [reflexivity|]. rewrite IH. reflexivity. Qed.

Lemma length_substring0 (k : nat) (s : string) :
  String.length (String.substring 0 k s) = Nat.min k (String.length s).
Proof.
  revert k; induction s as [|c s IH]; intros [|k]; simpl; try reflexivity.
  rewrite IH. reflexivity.
Qed.

Lemma substring0_append (a b : string) :
  String.substring 0 (String.length a) (a ++ b)%string = a.
Proof.
  induction a as [|c a IH]; simpl.
  - destruct b; reflexivity.
  - rewrite IH. reflexivity.
Qed.

End StringFacts.

(** X11.  [summarizeNote] returns a note of at most 100 characters as it
    is, and cuts a longer one to its first 100 characters followed by three
    dots; the summary is never longer than 103 characters, and summarizing a
    summary changes nothing. *)
Theorem summarizeNote_bounds (text : string) :
  (String.length (Notes.summarizeNote text) <= 103)%nat /\
  ((String.length text <= 100)%nat -> Notes.summarizeNote text = text) /\
  ((100 < String.length text)%nat ->
   Notes.summarizeNote text = (String.substring 0 100 text ++ "...")%string /\
   String.length (Notes.summarizeNote text) = 103%nat) /\
  Notes.summarizeNote (Notes.summarizeNote text) = Notes.summarizeNote text.
Proof.
  assert (Hlong : (100 < String.length text)%nat ->
                  Notes.summarizeNote text
                  = (String.substring 0 100 text ++ "...")%string /\
                  String.length (Notes.summarizeNote text) = 103%nat).
  { intros H. unfold Notes.summarizeNote.
    destruct (Nat.leb_spec (String.length text) 100); [lia|].
    split; [reflexivity|].
    rewrite StringFacts.length_append, StringFacts.length_substring0.
    change (String.length "...") with 3%nat. lia. }
  assert (Hshort : (String.length text <= 100)%nat -> Notes.summarizeNote text = text).
  { intros H. unfold Notes.summarizeNote.
    destruct (Nat.leb_spec (String.length text) 100); [reflexivity|lia]. }
  split; [|split; [exact Hshort|split; [exact Hlong|]]].
  - destruct (Nat.le_gt_cases (String.length text) 100) as [H|H].
    + rewrite (Hshort H). lia.
    + rewrite (proj2 (Hlong H)). lia.
  - destruct (Nat.le_gt_cases (String.length text) 100) as [H|H].
    + rewrite !(Hshort H). reflexivity.
    + destruct (Hlong H) as [Heq Hlen].
      unfold Notes.summarizeNote at 1.
      destruct (Nat.leb_spec (String.length (Notes.summarizeNote text)) 100); [lia|].
      rewrite Heq at 1.
      assert (H100 : String.length (String.substring 0 100 text) = 100%nat)
        by (rewrite StringFacts.length_substring0; lia).
      rewrite <- H100 at 1. rewrite StringFacts.substring0_append.
      symmetry. exact Heq.
Qed.

Lemma summarizeNote_bounds_witness :
  Notes.summarizeNote "Buy milk" = "Buy milk".
Proof.
  apply (proj1 (proj2 (summarizeNote_bounds "Buy milk"))). simpl. lia.
Defined.

(** X12.  When the tokenizer library knows [gpt-3.5-turbo], [getEncoding]
    never throws: it returns the tokenizer of the configured model (of
    [gpt-3.5-turbo] when no model is configured) if the library knows it,
    and the tokenizer of [gpt-3.5-turbo] otherwise. *)
Theorem getEncoding_falls_back
    (encodingForModel : string -> option Encoding)
    (settings : ChatStreamSettings) (fallback : Encoding) :
  encodingForModel "gpt-3.5-turbo" = Some fallback ->
  let modelName :=
    if JS.truthyStr (apiModel settings) then apiModel settings else "gpt-3.5-turbo" in
  Notes.getEncoding encodingForModel settings
  = Json.Returned match encodingForModel modelName with
                  | Some encoding => encoding
                  | None => fallback
                  end.
Proof.
  intros Hf. cbv zeta. unfold Notes.getEncoding, Notes.defaultApiModel.
  destruct (encodingForModel
              (if JS.truthyStr (apiModel settings)
               then apiModel settings else "gpt-3.5-turbo"));
    [reflexivity|]. rewrite Hf. reflexivity.
Qed.

Lemma getEncoding_falls_back_witness :
  Notes.getEncoding
    (fun name => if String.eqb name "gpt-3.5-turbo" then Some charEncoding else None)
    (settingsWith "" 50 0)
  = Json.Returned charEncoding.
Proof.
  apply (getEncoding_falls_back
           (fun name => if String.eqb name "gpt-3.5-turbo"
                        then Some charEncoding else None)
           (settingsWith "" 50 0) charEncoding).
  reflexivity.
Defined.

(* ================================================================= *)
(** ** Further properties of the completion client *)

(** X13.  The model name sent to the endpoint never starts with [o3]:
    [o3-mini] is replaced by [gpt-4o-mini], any other name that starts with
    [o3] by [gpt-4o], every other name is sent as it is, and remapping twice
    is the same as remapping once. *)
Theorem normalizeModel_leaves_no_o3 (model : string) (input : list Message)
    (max_tokens : option Z) :
  JS.startsWith (body_model (requestBody model input max_tokens)) "o3" = false /\
  (JS.startsWith model "o3" = false ->
   body_model (requestBody model input max_tokens) = model) /\
  (model = "o3-mini" ->
   body_model (requestBody model input max_tokens) = "gpt-4o-mini") /\
  (JS.startsWith model "o3" = true -> model <> "o3-mini" ->
   body_model (requestBody model input max_tokens) = "gpt-4o") /\
  normalizeModel (normalizeModel model) = normalizeModel model.
Proof.
  cbn [body_model requestBody]. unfold normalizeModel.
  destruct (String.eqb_spec model "o3-mini") as [->|Hne].
  { repeat split; try reflexivity; try discriminate.
    intros _ H. exfalso. apply H. reflexivity. }
  destruct (JS.truthyStr model && JS.startsWith model "o3") eqn:E.
  { repeat split; try reflexivity.
    - apply andb_true_iff in E as [_ E]. rewrite E. discriminate.
    - intros H. contradiction. }
  assert (Hs : JS.startsWith model "o3" = false).
  { destruct model; [reflexivity|]. exact E. }
  repeat split; try assumption; try reflexivity.
  - intros H. contradiction.
  - rewrite Hs. discriminate.
  - destruct (String.eqb_spec model "o3-mini"); [contradiction|].
    rewrite E. reflexivity.
Qed.

Lemma normalizeModel_leaves_no_o3_witness :
  body_model (requestBody "gpt-4.1" [] None) = "gpt-4.1" /\
  body_model (requestBody "o3-mini" [] None) = "gpt-4o-mini" /\
  body_model (requestBody "o3-pro" [] None) = "gpt-4o".
Proof.
  split; [|split].
  - apply (proj1 (proj2 (normalizeModel_leaves_no_o3 "gpt-4.1" [] None))).
    reflexivity.
  - apply (proj1 (proj2 (proj2 (normalizeModel_leaves_no_o3 "o3-mini" [] None)))).
    reflexivity.
  - apply (proj1 (proj2 (proj2 (proj2 (normalizeModel_leaves_no_o3 "o3-pro" [] None)))));
      [reflexivity|discriminate].
Defined.

Lemma getProp_not_null (item : JSON) (key : string) :
  match item with JNull => false | _ => true end = true ->
  getProp (Some item) key = Returned (member key item).
Proof. destruct item; try reflexivity. discriminate. Qed.

Lemma filterOutputText_no_null (items : list JSON) :
  More.hasNull items = false ->
  filterOutputText items
  = Returned (filter (fun item => isOutputText (member "type" item)) items).
Proof.
  induction items as [|item rest IH]; intros H; [reflexivity|].
  simpl in H. apply orb_false_iff in H as [Hi Hr].
  cbn [filterOutputText].
  rewrite getProp_not_null by (destruct item; [discriminate|reflexivity..]).
  cbn [bind]. rewrite (IH Hr). reflexivity.
Qed.

Lemma mapText_no_null (items : list JSON) :
  More.hasNull items = false ->
  mapText items = Returned (map (member "text") items).
Proof.
  induction items as [|item rest IH]; intros H; [reflexivity|].
  simpl in H. apply orb_false_iff in H as [Hi Hr].
  cbn [mapText].
  rewrite getProp_not_null by (destruct item; [discriminate|reflexivity..]).
  cbn [bind]. rewrite (IH Hr). reflexivity.
Qed.

Lemma hasNull_filter (f : JSON -> bool) (items : list JSON) :
  More.hasNull items = false -> More.hasNull (filter f items) = false.
Proof.
  induction items as [|item rest IH]; intros H; [reflexivity|].
  simpl in H. apply orb_false_iff in H as [Hi Hr]. simpl.
  destruct (f item); [simpl; rewrite Hi|]; apply IH; exact Hr.
Qed.

(** X14.  When [res.content] is an array without a [null] item, the reply
    is always a string: the texts of the items tagged [output_text], joined
    in order; items with another tag, or without one, are skipped, and the
    [output] and [output_text] fields of the body are not looked at. *)
Theorem inline_content_is_joined (res : JSON) (items : list JSON) :
  member "content" res = Some (JArr items) ->
  More.hasNull items = false ->
  parseResponse res = Returned (Some (JStr (JS.join (More.taggedTexts items)))).
Proof.
  intros Hm Hn. destruct res as [| | | | |members]; try discriminate.
  simpl in Hm. unfold parseResponse. simpl. rewrite Hm. simpl.
  unfold extractText. rewrite (filterOutputText_no_null items Hn). simpl.
  rewrite mapText_no_null by (apply hasNull_filter; exact Hn). simpl.
  unfold More.taggedTexts. rewrite map_map. reflexivity.
Qed.

Lemma inline_content_is_joined_witness :
  parseResponse
    (JObj [("content", JArr [outputText "Hel";
                             JObj [("type", JStr "refusal"); ("text", JStr "no")];
                             JNum 3;
                             outputText "lo"]);
           ("output", JStr "ignored");
           ("output_text", JStr "ignored too")])
  = Returned (Some (JStr "Hello")).
Proof.
  apply (inline_content_is_joined _
           [outputText "Hel";
            JObj [("type", JStr "refusal"); ("text", JStr "no")];
            JNum 3;
            outputText "lo"]); reflexivity.
Defined.

(** X15.  A parsed body that is not an object ([null], a boolean, a
    number, a string or an array) never makes the client throw: the reply is
    [undefined]. *)
Theorem non_object_body_is_undefined (res : JSON) :
  More.isObject res = false -> parseResponse res = Returned None.
Proof.
  destruct res as [| b | n | s | items | members]; intros H;
    try reflexivity; try discriminate.
  - destruct b; reflexivity.
  - unfold parseResponse. simpl. destruct (n =? 0); reflexivity.
  - destruct s; reflexivity.
Qed.

Lemma non_object_body_is_undefined_witness :
  parseResponse (JArr [outputText "Hi"]) = Returned None /\
  parseResponse (JStr "Service unavailable") = Returned None.
Proof.
  split; apply non_object_body_is_undefined; reflexivity.
Defined.

(* ================================================================= *)
(** ** Further properties of the reply integrator *)

Lemma filter_fresh (ns : list CanvasNode) (fresh : string) :
  ~ In fresh (map id ns) ->
  filter (fun m => negb (String.eqb (id m) fresh)) ns = ns.
Proof.
  induction ns as [|m ns IH]; intros H; [reflexivity|]. simpl in *.
  destruct (String.eqb_spec (id m) fresh) as [He|Hne].
  - exfalso. apply H. left. exact He.
  - simpl. rewrite IH; [reflexivity|]. intros Hin. apply H. right. exact Hin.
Qed.

Lemma removeNode_createNode (canvas : Canvas) (newId text : string) (h : Z)
    (nodeColor nodeRole : option string) :
  ~ In newId (More.noteIds canvas) ->
  let (c1, created) := createNode canvas newId text h nodeColor nodeRole in
  removeNode c1 created = canvas.
Proof.
  intros Hfresh. destruct canvas as [ns es sel].
  unfold More.noteIds in Hfresh. unfold createNode, removeNode. simpl in *.
  rewrite filter_app, (filter_fresh ns newId Hfresh). simpl.
  rewrite String.eqb_refl. simpl. rewrite app_nil_r. reflexivity.
Qed.

(** X16.  A generation that fails leaves the canvas exactly as it was: when
    the completion resolves with [undefined] or rejects, the user did not
    touch the canvas during the call, and the placeholder's identifier is
    not the identifier of a note of the canvas, [generateNote] returns the
    canvas it started from. *)
Theorem failed_generation_restores_canvas
    (settings : ChatStreamSettings) (encoding : Encoding)
    (ancestryOf : Canvas -> CanvasNode -> Ancestry)
    (calcHeight : string -> Z -> Z) (newNodeId newEdgeId actionName : string)
    (actionPrompt explicitLabel : option string)
    (completion : Outcome (option string)) (canvas : Canvas) :
  ~ In newNodeId (More.noteIds canvas) ->
  completion = Returned None \/ (exists error, completion = Threw error) ->
  fst (generateNote settings encoding ancestryOf calcHeight newNodeId newEdgeId
                    actionName actionPrompt explicitLabel
                    (fun c _ => (c, completion)) canvas)
  = canvas.
Proof.
  intros Hfresh Hfail. unfold generateNote.
  destruct (negb (JS.truthyStr (apiKey settings))); [reflexivity|].
  destruct (selection canvas) as [|selected [|]] eqn:Hs; try reflexivity.
  destruct (findNode canvas selected) as [node|]; [|reflexivity].
  destruct (Builder.result_messages _) as [|m ms]; [reflexivity|].
  pose proof (removeNode_createNode canvas newNodeId
                ("Calling AI (" ++ apiModel settings ++ ")...")%string
                placeholderNoteHeight (Some assistantColor) (Some "assistant")
                Hfresh) as Hrm.
  destruct (createNode canvas newNodeId _ _ _ _) as [c1 created].
  destruct Hfail as [->|[error ->]]; cbn [integrate fst]; exact Hrm.
Qed.

Lemma failed_generation_restores_canvas_witness :
  let canvas := {| nodes := [note "src" "hello"]; edges := [];
                   selection := ["src"] |} in
  fst (generateNote (settingsWith "Be brief." 50 0) charEncoding
                    (fun _ n => Anc n []) (fun _ h => h) "new" "e1" "Generate"
                    None None
                    (fun c _ => (c, Threw "Request failed, status 429")) canvas)
  = canvas.
Proof.
  intros canvas.
  apply (failed_generation_restores_canvas (settingsWith "Be brief." 50 0)
           charEncoding (fun _ n => Anc n []) (fun _ h => h) "new" "e1" "Generate"
           None None (Threw "Request failed, status 429") canvas).
  - simpl. intros [H|[]]. discriminate.
  - right. eexists. reflexivity.
Defined.

(** X17.  [generateNote] sends no request and changes nothing when there
    is no API key (one notice asks for it), when the selection is not a
    single note, or when every note that the walk reaches from the selected
    note is filtered out: the result is the canvas as it was, whatever the
    completion would have been. *)
Theorem generation_guards
    (settings : ChatStreamSettings) (encoding : Encoding)
    (ancestryOf : Canvas -> CanvasNode -> Ancestry)
    (calcHeight : string -> Z -> Z) (newNodeId newEdgeId actionName : string)
    (actionPrompt explicitLabel : option string)
    (await : Canvas -> list Message -> Settled) (canvas : Canvas) :
  let run := generateNote settings encoding ancestryOf calcHeight newNodeId
                          newEdgeId actionName actionPrompt explicitLabel
                          await canvas in
  (JS.truthyStr (apiKey settings) = false ->
   run = (canvas, ["Please set your OpenAI API key in the plugin settings"])) /\
  (JS.truthyStr (apiKey settings) = true ->
   List.length (selection canvas) <> 1%nat -> run = (canvas, [])) /\
  (forall node : CanvasNode,
     JS.truthyStr (apiKey settings) = true ->
     selection canvas = [id node] ->
     findNode canvas (id node) = Some node ->
     allVisitedFiltered settings 0 (ancestryOf canvas node) = true ->
     run = (canvas, [])).
Proof.
  cbv zeta. unfold generateNote. split; [|split].
  - intros ->. reflexivity.
  - intros -> Hs. simpl.
    destruct (selection canvas) as [|a [|b l]]; try reflexivity.
    exfalso. apply Hs. reflexivity.
  - intros node -> Hs Hf Hall. simpl. rewrite Hs, Hf.
    unfold buildMessages, walk.
    rewrite (walk_filtered settings encoding _ 0 _ Hall). reflexivity.
Qed.

Lemma generation_guards_witness :
  let canvas := {| nodes := [note "src" "   "]; edges := []; selection := ["src"] |} in
  generateNote (settingsWith "Be brief." 50 0) charEncoding
               (fun _ n => Anc n []) (fun _ h => h) "new" "e1" "Generate"
               None None (fun c _ => (c, Returned (Some "Hi"))) canvas
  = (canvas, []).
Proof.
  intros canvas.
  apply (proj2 (proj2 (generation_guards (settingsWith "Be brief." 50 0)
                         charEncoding (fun _ n => Anc n []) (fun _ h => h)
                         "new" "e1" "Generate" None None
                         (fun c _ => (c, Returned (Some "Hi"))) canvas))
           (note "src" "   ")); reflexivity.
Defined.

(** X18.  Integrating a reply adds and removes no note and changes no note
    but the placeholder, whose text becomes the reply and whose height
    becomes the height computed for it; exactly one edge is added, from the
    source note to the placeholder, with the given label. *)
Theorem reply_integration_frame
    (calcHeight : string -> Z -> Z) (newEdgeId label : string)
    (node created : CanvasNode) (text : string) (canvas : Canvas) :
  let after := fst (integrate calcHeight newEdgeId label node created
                              (Returned (Some text)) canvas) in
  More.noteIds after = More.noteIds canvas /\
  edges after
  = edges canvas ++ [{| edge_id := newEdgeId; edge_from := id node;
                        edge_to := id created; edge_label := label |}] /\
  (forall m, In m (nodes canvas) -> id m <> id created -> In m (nodes after)) /\
  (forall m, In m (nodes after) -> id m = id created ->
             content m = Some text /\
             height m = calcHeight text (height node)).
Proof.
  destruct canvas as [ns es sel]. cbv zeta. unfold integrate, More.noteIds.
  assert (Hnodes : forall c : Canvas * list string,
            c = (selectOnly
                   (addEdge (moveAndResize
                               (setText {| nodes := ns; edges := es; selection := sel |}
                                        created text)
                               created (calcHeight text (height node)))
                            newEdgeId node created label) created, [])
            \/ c = (addEdge (moveAndResize
                               (setText {| nodes := ns; edges := es; selection := sel |}
                                        created text)
                               created (calcHeight text (height node)))
                            newEdgeId node created label, []) ->
            nodes (fst c)
            = map (fun m => if String.eqb (id m) (id created)
                            then {| id := id m; content := Some text;
                                    chat_role := chat_role m; color := color m;
                                    height := calcHeight text (height node) |}
                            else m) ns /\
            edges (fst c)
            = es ++ [{| edge_id := newEdgeId; edge_from := id node;
                        edge_to := id created; edge_label := label |}]).
  { intros c [->| ->]; simpl; (split; [|reflexivity]);
      rewrite map_map; apply map_ext; intros m;
      destruct (String.eqb (id m) (id created)) eqn:E; simpl; rewrite E; reflexivity. }
  match goal with
  | |- context [fst ?c] =>
      destruct (Hnodes c) as [Hn He]
  end.
  { cbn [selection addEdge moveAndResize setText updateNode].
    destruct sel as [|a [|b l]]; [left; reflexivity| |left; reflexivity].
    destruct (String.eqb a (id node)); [left|right]; reflexivity. }
  rewrite Hn, He. repeat split.
  - rewrite map_map. apply map_ext. intros m.
    destruct (String.eqb (id m) (id created)); reflexivity.
  - intros m Hin Hne. apply in_map_iff. exists m.
    apply String.eqb_neq in Hne. rewrite Hne. split; [reflexivity|exact Hin].
  - apply in_map_iff in H as (m0 & <- & _).
    destruct (String.eqb_spec (id m0) (id created)) as [_|Hne]; [reflexivity|].
    contradiction.
  - apply in_map_iff in H as (m0 & <- & _).
    destruct (String.eqb_spec (id m0) (id created)) as [_|Hne]; [reflexivity|].
    contradiction.
Qed.

Lemma reply_integration_frame_witness :
  let canvas := {| nodes := [note "src" "hello"; reply "new" "Calling AI (gpt-4o)..."];
                   edges := []; selection := ["src"] |} in
  In (note "src" "hello")
     (nodes (fst (integrate (fun _ h => h + 20) "e1" "Generate"
                            (note "src" "hello")
                            (reply "new" "Calling AI (gpt-4o)...")
                            (Returned (Some "Hi!")) canvas))).
Proof.
  intros canvas.
  apply (proj1 (proj2 (proj2 (reply_integration_frame (fun _ h => h + 20) "e1"
                                "Generate" (note "src" "hello")
                                (reply "new" "Calling AI (gpt-4o)...") "Hi!"
                                canvas)))).
  - left. reflexivity.
  - discriminate.
Defined.

(* ================================================================= *)
(** ** The settings tab *)

Module SortFacts.

Import SettingsTab.

Lemma insertSorted_perm (x : string) (l : list string) :
  Permutation (x :: l) (insertSorted x l).
Proof.
  induction l as [|y l IH]; simpl; [apply Permutation_refl|].
  destruct (String.leb x y); [apply Permutation_refl|].
  eapply Permutation_trans; [apply perm_swap|].
  apply perm_skip. exact IH.
Qed.

Lemma sortStrings_perm (l : list string) : Permutation l (sortStrings l).
Proof.
  induction l as [|x l IH]; simpl; [apply Permutation_refl|].
  eapply Permutation_trans; [apply perm_skip; exact IH|].
  apply insertSorted_perm.
Qed.

Lemma insertSorted_hd (x y : string) (l : list string) :
  String.leb y x = true ->
  HdRel (fun a b => String.leb a b = true) y l ->
  HdRel (fun a b => String.leb a b = true) y (insertSorted x l).
Proof.
  intros Hyx Hhd. destruct l as [|z l]; simpl; [constructor; exact Hyx|].
  destruct (String.leb x z); constructor; [exact Hyx|].
  inversion Hhd. assumption.
Qed.

Lemma insertSorted_sorted (x : string) (l : list string) :
  Sorted (fun a b => String.leb a b = true) l ->
  Sorted (fun a b => String.leb a b = true) (insertSorted x l).
Proof.
  induction l as [|y l IH]; intros Hs; simpl.
  - constructor; constructor.
  - inversion Hs as [|? ? Hl Hhd]; subst.
    destruct (String.leb x y) eqn:E.
    + constructor; [exact Hs|constructor; exact E].
    + constructor; [apply IH; exact Hl|].
      apply insertSorted_hd; [|exact Hhd].
      destruct (String.leb_total x y) as [H|H]; [congruence|exact H].
Qed.

Lemma sortStrings_sorted (l : list string) :
  Sorted (fun a b => String.leb a b = true) (sortStrings l).
Proof.
  induction l as [|x l IH]; simpl; [constructor|].
  apply insertSorted_sorted. exact IH.
Qed.

Lemma stripTrailingSlashes_no_slash (s t : string) :
  stripTrailingSlashes s <> (t ++ "/")%string.
Proof.
  revert t; induction s as [|c s IH]; intros t; simpl.
  - destruct t; discriminate.
  - destruct (stripTrailingSlashes s) as [|d u] eqn:E.
    + destruct (Ascii.eqb_spec c "/"%char) as [->|Hne].
      * destruct t; discriminate.
      * destruct t as [|a [|b t]]; simpl; congruence.
    + destruct t as [|a t]; simpl; [discriminate|].
      intros H. injection H as _ H. exact (IH t H).
Qed.

End SortFacts.

(** X19.  The model dropdown shows the fetched models that start with
    [gpt-] or with [o] and a digit and do not end in a date
    ([-YYYY-MM-DD]), each as often as it was fetched, in ascending order of
    code units; no other model is shown. *)
Theorem shown_models_are_filtered_and_sorted (models : list string) :
  Permutation (filter SettingsTab.keepModel models) (SettingsTab.shownModels models) /\
  Sorted (fun a b => String.leb a b = true) (SettingsTab.shownModels models) /\
  (forall model,
     In model (SettingsTab.shownModels models) <->
     In model models /\ SettingsTab.matchesFamily model = true
     /\ SettingsTab.isDatedSnapshot model = false).
Proof.
  unfold SettingsTab.shownModels.
  pose proof (SortFacts.sortStrings_perm (filter SettingsTab.keepModel models)) as Hp.
  split; [exact Hp|]. split; [apply SortFacts.sortStrings_sorted|].
  intros model. split.
  - intros Hin. apply (Permutation_in _ (Permutation_sym Hp)) in Hin.
    apply filter_In in Hin as [Hin Hk]. unfold SettingsTab.keepModel in Hk.
    apply andb_true_iff in Hk as [Hf Hd]. apply negb_true_iff in Hd.
    repeat split; assumption.
  - intros (Hin & Hf & Hd). apply (Permutation_in _ Hp).
    apply filter_In. split; [exact Hin|].
    unfold SettingsTab.keepModel. rewrite Hf, Hd. reflexivity.
Qed.

Lemma shown_models_are_filtered_and_sorted_witness :
  In "o3-mini"
     (SettingsTab.shownModels
        ["whisper-1"; "o3-mini"; "gpt-4o-2024-08-06"; "gpt-4o"; "omni-moderation"]).
Proof.
  apply (proj2 (proj2 (shown_models_are_filtered_and_sorted
                         ["whisper-1"; "o3-mini"; "gpt-4o-2024-08-06"; "gpt-4o";
                          "omni-moderation"]))).
  split; [right; left; reflexivity|]. split; reflexivity.
Defined.

(** X20.  The API URL field stores what the user typed, trimmed and without
    its trailing slashes, only when that text starts with [http://] or
    [https://]; otherwise the stored URL stays as it was.  A stored URL
    never ends in a slash. *)
Theorem api_url_is_normalized (current value : string) :
  let stored := SettingsTab.apiUrlOnChange current value in
  let typed := SettingsTab.stripTrailingSlashes (JS.trim value) in
  (JS.startsWith typed "http://" = true \/ JS.startsWith typed "https://" = true ->
   stored = typed /\ forall t, stored <> (t ++ "/")%string) /\
  (JS.startsWith typed "http://" = false ->
   JS.startsWith typed "https://" = false -> stored = current).
Proof.
  cbv zeta. unfold SettingsTab.apiUrlOnChange. split.
  - intros H.
    assert (Ht : JS.truthyStr (SettingsTab.stripTrailingSlashes (JS.trim value)) = true).
    { destruct (SettingsTab.stripTrailingSlashes (JS.trim value));
        [destruct H; discriminate|reflexivity]. }
    rewrite Ht. simpl andb.
    assert (Ho : JS.startsWith (SettingsTab.stripTrailingSlashes (JS.trim value)) "http://"
                 || JS.startsWith (SettingsTab.stripTrailingSlashes (JS.trim value))
                                  "https://" = true).
    { destruct H as [-> | ->]; [reflexivity|apply orb_true_r]. }
    rewrite Ho. split; [reflexivity|].
    intros t. apply SortFacts.stripTrailingSlashes_no_slash.
  - intros -> ->. rewrite andb_false_r. reflexivity.
Qed.

Lemma api_url_is_normalized_witness :
  SettingsTab.apiUrlOnChange "https://api.openai.com/v1" "  http://localhost:8080/v1//  "
  = "http://localhost:8080/v1" /\
  SettingsTab.apiUrlOnChange "https://api.openai.com/v1" "localhost:8080"
  = "https://api.openai.com/v1".
Proof.
  split.
  - apply (proj1 (api_url_is_normalized "https://api.openai.com/v1"
                    "  http://localhost:8080/v1//  ")).
    left. reflexivity.
  - apply (proj2 (api_url_is_normalized "https://api.openai.com/v1" "localhost:8080"));
      reflexivity.
Defined.
